(** * run_devpi: the drone plugin that publishes a package to a devpi server

    A shallow embedding of [run_devpi.py].  The plugin validates the [vargs]
    mapping of its input payload and then shells out to the [devpi] client
    four times.  The embedding keeps the Python control flow: [sys.exit] and
    uncaught exceptions are outcomes of a small state-and-exit monad whose
    state records every child process that was started and every line that
    was printed.

    What the plugin does not own is a parameter of the development: the
    child processes ([spawn]), [urllib.parse.urlsplit], [os.path.join] and
    [glob.glob]. *)

From Stdlib Require Import ZArith Ascii.
From stdpp Require Import base option list strings gmap.

Local Open Scope string_scope.
Local Open Scope list_scope.
Set Warnings "-register-all".

(** ** Values carried by the JSON payload *)

(** JSON scalars and arrays as Python sees them after decoding; numbers are
    integers. *)
Inductive value : Type :=
| VNone
| VBool (b : bool)
| VInt (n : Z)
| VStr (s : string)
| VList (l : list value).

(** Python truthiness of a [str]. *)
Definition str_truthy (s : string) : bool :=
  match s with
  | EmptyString => false
  | String _ _ => true
  end.

(** Python truthiness, as used by [if not index] and [if files]. *)
Definition truthy (v : value) : bool :=
  match v with
  | VNone => false
  | VBool b => b
  | VInt n => negb (Z.eqb n 0)
  | VStr s => str_truthy s
  | VList l => match l with [] => false | _ :: _ => true end
  end.

(** [x is None] *)
Definition is_None (v : value) : bool :=
  match v with
  | VNone => true
  | _ => false
  end.

(** [isinstance(x, str)] *)
Definition isinstance_str (v : value) : bool :=
  match v with
  | VStr _ => true
  | _ => false
  end.

(** ** Exceptions, results and outcomes *)

Inductive exn : Type :=
| KeyError (key : string)
| TypeError
| LibError (name : string).

(** The result of a call that does not touch the process state. *)
Inductive result (A : Type) : Type :=
| Ok (a : A)
| Err (e : exn).
Arguments Ok {A} a.
Arguments Err {A} e.

(** One command handed to [subprocess]: its argument vector and working
    directory ([None] when the parent's directory is inherited). *)
Record invocation : Type := Invocation {
  argv : list value;
  cwd : option value
}.

(** The observable state of a run: the commands handed to [subprocess] so
    far, in order, whether or not starting them succeeded, and the lines
    printed by the plugin itself. *)
Record world : Type := World {
  calls : list invocation;
  stdout : list string
}.

(** How a computation ends: it returns, [sys.exit(code)] was called, or an
    exception escaped. *)
Inductive outcome (A : Type) : Type :=
| Returned (a : A)
| Exited (code : Z)
| Raised (e : exn).
Arguments Returned {A} a.
Arguments Exited {A} code.
Arguments Raised {A} e.

Definition M (A : Type) : Type := world -> outcome A * world.

Definition ret {A} (a : A) : M A := fun w => (Returned a, w).

Definition bind {A B} (m : M A) (k : A -> M B) : M B :=
  fun w =>
    match m w with
    | (Returned a, w') => k a w'
    | (Exited c, w') => (Exited c, w')
    | (Raised e, w') => (Raised e, w')
    end.

(** stdpp's monad notations: [x ← m; k] and [m ;; k]. *)
#[global] Instance M_ret : MRet M := @ret.
#[global] Instance M_bind : MBind M := fun A B k m => bind m k.

(** [raise e] *)
Definition raise {A} (e : exn) : M A := fun w => (Raised e, w).

(** [sys.exit(code)] *)
Definition sys_exit {A} (code : Z) : M A := fun w => (Exited code, w).

(** [print(line)] *)
Definition print (line : string) : M unit :=
  fun w => (Returned tt, World (calls w) (stdout w ++ [line])).

Definition lift {A} (r : result A) : M A :=
  match r with
  | Ok a => ret a
  | Err e => raise e
  end.

(** [if c: body] *)
Definition when (c : bool) (body : M unit) : M unit :=
  if c then body else ret tt.

(** [d[k]] *)
Definition subscript {V} (d : gmap string V) (k : string) : M V :=
  match d !! k with
  | Some v => ret v
  | None => raise (KeyError k)
  end.

(** [d.get(k, dflt)]; [d.get(k)] is [dict_get d k VNone]. *)
Definition dict_get (d : gmap string value) (k : string) (dflt : value) : value :=
  default dflt (d !! k).

(** ** Process handles *)

(** The part of [subprocess.CompletedProcess] and of [subprocess.Popen] the
    plugin looks at.  [child_exit] is the status the child ends with, known
    to the operating system; [returncode] is the attribute Python exposes,
    [None] on a [Popen] that has not been waited for. *)
Record process : Type := Process {
  args : list value;
  child_exit : Z;
  returncode : option Z
}.

(** What a decorated function hands back to its caller. *)
Inductive pyobj : Type :=
| PyNone
| PyProcess (p : process).

Definition DEFAULT_CLIENTDIR : value := VStr "/tmp/devpi-clientdir".

(** [urlsplit]'s answer, restricted to the two attributes that are read. *)
Record SplitResult : Type := mkSplitResult {
  scheme : string;
  netloc : string
}.

Definition MSG_SERVER : string :=
  "You must specify the full, absolute URI to your devpi server (including protocol).".
Definition MSG_INDEX : string :=
  "You must specify an index on your devpi server to upload to.".
Definition MSG_USERNAME : string :=
  "You must specify a username to upload packages as.".
Definition MSG_PASSWORD : string :=
  "You must specify a password.".

(** ** A concrete environment

    The plugin is verified against any [urlsplit], [os.path.join], [glob]
    and any behaviour of the child processes.  The definitions below are one
    such environment, used to run the plugin on concrete payloads. *)

Module Env.

Definition code (c : ascii) : nat := Ascii.nat_of_ascii c.

Definition is_alpha (c : ascii) : bool :=
  (Nat.leb 65 (code c) && Nat.leb (code c) 90)
  || (Nat.leb 97 (code c) && Nat.leb (code c) 122).

Definition is_digit (c : ascii) : bool :=
  Nat.leb 48 (code c) && Nat.leb (code c) 57.

(** [scheme_chars] of [urllib.parse]: letters, digits and [+-.]. *)
Definition is_scheme_char (c : ascii) : bool :=
  is_alpha c || is_digit c
  || Nat.eqb (code c) 43 || Nat.eqb (code c) 45 || Nat.eqb (code c) 46.

Definition lower (c : ascii) : ascii :=
  if Nat.leb 65 (code c) && Nat.leb (code c) 90
  then Ascii.ascii_of_nat (code c + 32) else c.

Fixpoint string_map (f : ascii -> ascii) (s : string) : string :=
  match s with
  | EmptyString => EmptyString
  | String c r => String (f c) (string_map f r)
  end.

Fixpoint string_forall (p : ascii -> bool) (s : string) : bool :=
  match s with
  | EmptyString => true
  | String c r => p c && string_forall p r
  end.

(** The longest prefix whose characters satisfy [p], and what follows. *)
Fixpoint span (p : ascii -> bool) (s : string) : string * string :=
  match s with
  | EmptyString => (EmptyString, EmptyString)
  | String c r =>
      if p c then let '(a, b) := span p r in (String c a, b)
      else (EmptyString, s)
  end.

Definition is_colon (c : ascii) : bool := Nat.eqb (code c) 58.
Definition is_slash (c : ascii) : bool := Nat.eqb (code c) 47.
(** One of [/?#], the characters that end the network location. *)
Definition ends_netloc (c : ascii) : bool :=
  is_slash c || Nat.eqb (code c) 63 || Nat.eqb (code c) 35.

(** [urlsplit] on a [str]: the scheme is what precedes the first colon
    when it starts with a letter and holds scheme characters only; the
    network location is what follows a leading [//]. *)
Definition urlsplit_str (url : string) : SplitResult :=
  let '(pre, rest) := span (fun c => negb (is_colon c)) url in
  let '(sch, url') :=
    match pre, rest with
    | String c0 _, String _ after =>
        if is_alpha c0 && string_forall is_scheme_char pre
        then (string_map lower pre, after) else (EmptyString, url)
    | _, _ => (EmptyString, url)
    end in
  match url' with
  | String a (String b r) =>
      if is_slash a && is_slash b
      then mkSplitResult sch (fst (span (fun c => negb (ends_netloc c)) r))
      else mkSplitResult sch EmptyString
  | _ => mkSplitResult sch EmptyString
  end.

(** On something that is not a [str], [urlsplit] decodes its argument: a
    falsy one becomes the empty URL, any other has no [decode]. *)
Definition urlsplit (v : value) : result SplitResult :=
  match v with
  | VStr s => Ok (urlsplit_str s)
  | _ => if truthy v then Err (LibError "AttributeError")
         else Ok (mkSplitResult EmptyString EmptyString)
  end.

Fixpoint ends_with_slash (s : string) : bool :=
  match s with
  | EmptyString => false
  | String c EmptyString => is_slash c
  | String _ r => ends_with_slash r
  end.

(** [posixpath.join] of two components. *)
Definition os_path_join (a b : string) : string :=
  match b with
  | String c _ =>
      if is_slash c then b
      else if negb (str_truthy a) || ends_with_slash a then (a +:+ b)%string
      else (a +:+ "/" +:+ b)%string
  | EmptyString =>
      if negb (str_truthy a) || ends_with_slash a then a
      else (a +:+ "/")%string
  end.

(** [glob] in a workspace [/ws] that holds [a.whl], [b.whl] and
    [c.tar.gz]. *)
Definition glob (pattern : string) : list string :=
  if String.eqb pattern "/ws/*.whl" then ["/ws/a.whl"; "/ws/b.whl"]
  else if String.eqb pattern "/ws/a.*" then ["/ws/a.whl"]
  else if String.eqb pattern "/ws/*.tar.gz" then ["/ws/c.tar.gz"]
  else if String.eqb pattern "/ws/" then ["/ws/"]
  else [].

(** Children whose statuses are scripted: the [n]-th child started ends
    with the [n]-th entry, and with 0 once the script is exhausted. *)
Definition scripted (script : list (result Z)) : list invocation -> invocation -> result Z :=
  fun history _ => nth (length history) script (Ok 0%Z).

Definition vargs : gmap string value :=
  <[ "server" := VStr "https://pkg.example.com" ]>
  (<[ "index" := VStr "root/myindex" ]>
  (<[ "username" := VStr "ci" ]>
  (<[ "password" := VStr "" ]> ∅))).

Definition workspace : gmap string value := {[ "path" := VStr "/ws" ]}.

Definition payload_of (v : gmap string value) : gmap string (gmap string value) :=
  <[ "vargs" := v ]> {[ "workspace" := workspace ]}.

Definition payload : gmap string (gmap string value) := payload_of vargs.

Definition w0 : world := World [] [].

End Env.

Section Plugin.

(** [urllib.parse.urlsplit]: it may raise. *)
Variable urlsplit : value -> result SplitResult.
(** [os.path.join] on two [str]. *)
Variable os_path_join : string -> string -> string.
(** [glob.glob] on a [str] pattern, where it answers: the matches in the
    order glob yields them, on the file system as it is when the upload
    step runs.  A pattern on which [glob.glob] itself raises (one with an
    embedded NUL is a [ValueError]) is not covered by this parameter. *)
Variable glob : string -> list string.
(** Starting a child: given the children started before, either the
    start itself raises or the child runs and ends with a status. *)
Variable spawn : list invocation -> invocation -> result Z.

Definition start (cmd : list value) (dir : option value) : M Z :=
  fun w =>
    let inv := Invocation cmd dir in
    let w' := World (calls w ++ [inv]) (stdout w) in
    match spawn (calls w) inv with
    | Ok rc => (Returned rc, w')
    | Err e => (Raised e, w')
    end.

(** [subprocess.run(cmd)]: start, wait, and return a [CompletedProcess]. *)
Definition subprocess_run (cmd : list value) : M process :=
  rc ← start cmd None;
  ret (Process cmd rc (Some rc)).

(** [subprocess.Popen(cmd, cwd=dir)] *)
Definition Popen (cmd : list value) (dir : value) : M process :=
  rc ← start cmd (Some dir);
  ret (Process cmd rc None).

(** [p.wait()]: blocks until the child ends and sets [p.returncode]; the
    handle is mutable in Python, here the updated handle is returned. *)
Definition wait (p : process) : M process :=
  ret (Process (args p) (child_exit p) (Some (child_exit p))).

(** [result.returncode == 1] *)
Definition returncode_is_1 (p : process) : bool :=
  match returncode p with
  | Some rc => Z.eqb rc 1
  | None => false
  end.

(** The decorator: [wrapped] calls [f], exits when the status is 1, and
    has no [return] statement, so it evaluates to [None]. *)
Definition die_on_error {A} (f : A -> M process) : A -> M pyobj :=
  fun a =>
    result ← f a;
    when (returncode_is_1 result) (sys_exit 1) ;;
    ret PyNone.

Definition select_server_body (a : value * value) : M process :=
  let '(server, clientdir) := a in
  subprocess_run [VStr "devpi"; VStr "use"; VStr "--clientdir"; clientdir; server].

Definition select_server (server clientdir : value) : M pyobj :=
  die_on_error select_server_body (server, clientdir).

Definition login_body (a : value * value * value) : M process :=
  let '(username, password, clientdir) := a in
  subprocess_run [VStr "devpi"; VStr "login"; VStr "--clientdir"; clientdir;
                  username; VStr "--password"; password].

Definition login (username password clientdir : value) : M pyobj :=
  die_on_error login_body (username, password, clientdir).

Definition select_index_body (a : value * value) : M process :=
  let '(index, clientdir) := a in
  subprocess_run [VStr "devpi"; VStr "use"; VStr "--clientdir"; clientdir; index].

Definition select_index (index clientdir : value) : M pyobj :=
  die_on_error select_index_body (index, clientdir).

Definition create_index_body (a : value * value) : M process :=
  let '(index, clientdir) := a in
  subprocess_run [VStr "devpi"; VStr "index"; VStr "--clientdir"; clientdir;
                  VStr "-c"; index].

Definition create_index (index clientdir : value) : M pyobj :=
  die_on_error create_index_body (index, clientdir).

(** [os.path.join(path, pattern)] on payload values: anything that is not
    a [str] is a [TypeError]. *)
Definition path_join (path pattern : value) : result string :=
  match path, pattern with
  | VStr p, VStr q => Ok (os_path_join p q)
  | _, _ => Err TypeError
  end.

(** The loop of [expand_files]: [files] is the accumulator. *)
Fixpoint expand_loop (path : value) (patterns : list value) (files : list value)
  : result (list value) :=
  match patterns with
  | [] => Ok files
  | pattern :: rest =>
      match path_join path pattern with
      | Ok pattern' => expand_loop path rest (files ++ map VStr (glob pattern'))
      | Err e => Err e
      end
  end.

(** [for pattern in patterns]: what iteration ranges over. *)
Definition iterate (patterns : value) : result (list value) :=
  match patterns with
  | VList l => Ok l
  | VStr s => Ok (map (fun c => VStr (String c EmptyString)) (String.list_ascii_of_string s))
  | _ => Err TypeError
  end.

Definition expand_files (path patterns : value) : result (list value) :=
  let files := [] in
  let patterns := if isinstance_str patterns then VList [patterns] else patterns in
  match iterate patterns with
  | Ok l => expand_loop path l files
  | Err e => Err e
  end.

Definition upload_base (clientdir : value) : list value :=
  [VStr "devpi"; VStr "upload"; VStr "--clientdir"; clientdir;
   VStr "--from-dir"; VStr "--no-vcs"].

Definition upload_package_body (a : value * value * value) : M process :=
  let '(path, clientdir, files) := a in
  let cmd := upload_base clientdir in
  cmd ← (if truthy files
         then extra ← lift (expand_files path files); ret (cmd ++ extra)
         else ret cmd);
  cmd ← Popen cmd path;
  cmd ← wait cmd;
  ret cmd.

Definition upload_package (path clientdir files : value) : M pyobj :=
  die_on_error upload_package_body (path, clientdir, files).

(** [all([a, b])] on two strings. *)
Definition all_truthy (l : list string) : bool := forallb str_truthy l.

Definition check_vargs (vargs : gmap string value) : M unit :=
  let server_uri := dict_get vargs "server" (VStr "") in
  parsed ← lift (urlsplit server_uri);
  when (negb (all_truthy [scheme parsed; netloc parsed]))
       (print MSG_SERVER ;; sys_exit 1) ;;
  let index := dict_get vargs "index" VNone in
  when (negb (truthy index))
       (print MSG_INDEX ;; sys_exit 1) ;;
  let username := dict_get vargs "username" VNone in
  when (negb (truthy username))
       (print MSG_USERNAME ;; sys_exit 1) ;;
  let password := dict_get vargs "password" VNone in
  when (is_None password)
       (print MSG_PASSWORD ;; sys_exit 1).

(** [main], with the payload [drone.plugin.get_input()] returned. *)
Definition main (payload : gmap string (gmap string value)) : M unit :=
  vargs ← subscript payload "vargs";
  check_vargs vargs ;;
  server ← subscript vargs "server";
  select_server server DEFAULT_CLIENTDIR ;;
  username ← subscript vargs "username";
  password ← subscript vargs "password";
  login username password DEFAULT_CLIENTDIR ;;
  index ← subscript vargs "index";
  select_index index DEFAULT_CLIENTDIR ;;
  workspace ← subscript payload "workspace";
  path ← subscript workspace "path";
  let files := dict_get vargs "files" VNone in
  upload_package path DEFAULT_CLIENTDIR files ;;
  ret tt.

(** ** Auxiliary definitions used in the statements *)

(** The three steps whose failure stops the build in [main]. *)
Inductive checked_step : Type :=
| SelectServer (server clientdir : value)
| Login (username password clientdir : value)
| SelectIndex (index clientdir : value).

Definition run_step (s : checked_step) : M pyobj :=
  match s with
  | SelectServer server clientdir => select_server server clientdir
  | Login username password clientdir => login username password clientdir
  | SelectIndex index clientdir => select_index index clientdir
  end.

(** The world after one more command has been handed to [subprocess]. *)
Definition started (inv : invocation) (w : world) : world :=
  World (calls w ++ [inv]) (stdout w).

(** The world after one more line has been printed. *)
Definition printed (line : string) (w : world) : world :=
  World (calls w) (stdout w ++ [line]).

(** The argument vector a checked step hands to [subprocess.run]. *)
Definition step_command (s : checked_step) : list value :=
  match s with
  | SelectServer server clientdir =>
      [VStr "devpi"; VStr "use"; VStr "--clientdir"; clientdir; server]
  | Login username password clientdir =>
      [VStr "devpi"; VStr "login"; VStr "--clientdir"; clientdir;
       username; VStr "--password"; password]
  | SelectIndex index clientdir =>
      [VStr "devpi"; VStr "use"; VStr "--clientdir"; clientdir; index]
  end.

(** The argument vector [upload_package] builds before it starts the
    child, or the exception building it raises. *)
Definition upload_command (path clientdir files : value) : result (list value) :=
  if truthy files then
    match expand_files path files with
    | Ok extra => Ok (upload_base clientdir ++ extra)
    | Err e => Err e
    end
  else Ok (upload_base clientdir).

(** The last statement of [main]: the upload call with its arguments. *)
Definition upload_step (payload : gmap string (gmap string value))
    (vargs : gmap string value) : M unit :=
  workspace ← subscript payload "workspace";
  path ← subscript workspace "path";
  let files := dict_get vargs "files" VNone in
  upload_package path DEFAULT_CLIENTDIR files ;;
  ret tt.

(** The URI check passes: a scheme and a network location. *)
Definition uri_ok (parsed : SplitResult) : bool :=
  str_truthy (scheme parsed) && str_truthy (netloc parsed).

(** Key [k] is present and its value is truthy (for a string: not empty). *)
Definition present_nonempty (d : gmap string value) (k : string) : bool :=
  match d !! k with
  | Some x => truthy x
  | None => false
  end.

(** Key [k] is present and its value is not [None]. *)
Definition present_not_null (d : gmap string value) (k : string) : bool :=
  match d !! k with
  | Some x => negb (is_None x)
  | None => false
  end.

(** [devpi index ...]: the command [create_index] runs. *)
Definition is_create_index (inv : invocation) : bool :=
  match argv inv with
  | _ :: VStr sub :: _ => String.eqb sub "index"
  | _ => false
  end.

Definition not_create_index (inv : invocation) : Prop :=
  is_create_index inv = false.

(** A computation that starts children satisfying [P] only, whatever the
    world it runs in and however it ends. *)
Definition only_starts (P : invocation -> Prop) {A} (m : M A) : Prop :=
  forall w, exists new, calls (snd (m w)) = calls w ++ new /\ Forall P new.

(** Every pattern joined with the workspace path and expanded. *)
Definition expansions (path : string) (patterns : list string) : list string :=
  concat (map (fun pattern => glob (os_path_join path pattern)) patterns).

(** The children [main] starts, as the devpi command line has them. *)
Definition use_call (target : value) : invocation :=
  Invocation [VStr "devpi"; VStr "use"; VStr "--clientdir";
              DEFAULT_CLIENTDIR; target] None.

Definition login_call (username password : value) : invocation :=
  Invocation [VStr "devpi"; VStr "login"; VStr "--clientdir";
              DEFAULT_CLIENTDIR; username; VStr "--password"; password] None.

Definition upload_call (path : value) (file_args : list value) : invocation :=
  Invocation ([VStr "devpi"; VStr "upload"; VStr "--clientdir";
               DEFAULT_CLIENTDIR; VStr "--from-dir"; VStr "--no-vcs"]
              ++ file_args) (Some path).

(** What [main] does once [check_vargs] has returned. *)
Definition main_steps (payload : gmap string (gmap string value))
    (vargs : gmap string value) : M unit :=
  server ← subscript vargs "server";
  select_server server DEFAULT_CLIENTDIR ;;
  username ← subscript vargs "username";
  password ← subscript vargs "password";
  login username password DEFAULT_CLIENTDIR ;;
  index ← subscript vargs "index";
  select_index index DEFAULT_CLIENTDIR ;;
  workspace ← subscript payload "workspace";
  path ← subscript workspace "path";
  let files := dict_get vargs "files" VNone in
  upload_package path DEFAULT_CLIENTDIR files ;;
  ret tt.

(** A computation that, when it ends by [sys.exit], does so with code 1. *)
Definition exits_only_1 {A} (m : M A) : Prop :=
  forall w c, fst (m w) = Exited c -> c = 1%Z.

(** A computation that prints nothing. *)
Definition silent {A} (m : M A) : Prop :=
  forall w, stdout (snd (m w)) = stdout w.

(** The commands a payload asks for, in the order [main] issues them: a
    missing field is read as [None], and the upload is left out when its
    path is missing or its command cannot be built. *)
Definition plan (payload : gmap string (gmap string value)) : list invocation :=
  match payload !! "vargs" with
  | None => []
  | Some v =>
      [use_call (dict_get v "server" VNone);
       login_call (dict_get v "username" VNone) (dict_get v "password" VNone);
       use_call (dict_get v "index" VNone)]
      ++ match payload !! "workspace" with
         | None => []
         | Some ws =>
             match ws !! "path" with
             | None => []
             | Some path =>
                 match upload_command path DEFAULT_CLIENTDIR
                                      (dict_get v "files" VNone) with
                 | Ok cmd => [Invocation cmd (Some path)]
                 | Err _ => []
                 end
             end
         end
  end.

(** ** The monad *)

Lemma bind_unfold {A B} (m : M A) (k : A -> M B) (w : world) :
  (m ≫= k) w =
  match m w with
  | (Returned a, w') => k a w'
  | (Exited c, w') => (Exited c, w')
  | (Raised e, w') => (Raised e, w')
  end.
Proof. reflexivity. Qed.

Lemma bind_returned {A B} (m : M A) (k : A -> M B) w a w' :
  m w = (Returned a, w') -> (m ≫= k) w = k a w'.
Proof. intros H. rewrite bind_unfold, H. reflexivity. Qed.

Lemma bind_exited {A B} (m : M A) (k : A -> M B) w c w' :
  m w = (Exited c, w') -> (m ≫= k) w = (Exited c, w').
Proof. intros H. rewrite bind_unfold, H. reflexivity. Qed.

Lemma bind_raised {A B} (m : M A) (k : A -> M B) w e w' :
  m w = (Raised e, w') -> (m ≫= k) w = (Raised e, w').
Proof. intros H. rewrite bind_unfold, H. reflexivity. Qed.

Section OnlyStarts.

Variable P : invocation -> Prop.

Lemma only_starts_pure {A} (m : M A) :
  (forall w, calls (snd (m w)) = calls w) -> only_starts P m.
Proof.
  intros H w. exists []. rewrite app_nil_r. split; [apply H|constructor].
Qed.

Lemma only_starts_ret {A} (a : A) : only_starts P (ret a).
Proof. apply only_starts_pure. reflexivity. Qed.

Lemma only_starts_raise {A} (e : exn) : only_starts P (@raise A e).
Proof. apply only_starts_pure. reflexivity. Qed.

Lemma only_starts_sys_exit {A} (c : Z) : only_starts P (@sys_exit A c).
Proof. apply only_starts_pure. reflexivity. Qed.

Lemma only_starts_print line : only_starts P (print line).
Proof. apply only_starts_pure. reflexivity. Qed.

Lemma only_starts_lift {A} (r : result A) : only_starts P (lift r).
Proof. destruct r; [apply only_starts_ret|apply only_starts_raise]. Qed.

Lemma only_starts_subscript {V} (d : gmap string V) k :
  only_starts P (subscript d k).
Proof.
  unfold subscript.
  destruct (d !! k); [apply only_starts_ret|apply only_starts_raise].
Qed.

Lemma only_starts_bind {A B} (m : M A) (k : A -> M B) :
  only_starts P m -> (forall a, only_starts P (k a)) ->
  only_starts P (m ≫= k).
Proof.
  intros Hm Hk w. rewrite bind_unfold.
  destruct (Hm w) as (new1 & E1 & F1).
  destruct (m w) as [[a|c|e] w1]; simpl in E1.
  - destruct (Hk a w1) as (new2 & E2 & F2).
    exists (new1 ++ new2). rewrite E2, E1, app_assoc.
    split; [reflexivity|]. apply Forall_app. split; assumption.
  - exists new1. split; assumption.
  - exists new1. split; assumption.
Qed.

Lemma only_starts_when c body :
  only_starts P body -> only_starts P (when c body).
Proof. intros H. destruct c; [exact H|apply only_starts_ret]. Qed.

Lemma only_starts_start cmd dir :
  P (Invocation cmd dir) -> only_starts P (start cmd dir).
Proof.
  intros HP w. exists [Invocation cmd dir]. unfold start.
  destruct (spawn (calls w) (Invocation cmd dir)); simpl;
    (split; [reflexivity|repeat constructor; exact HP]).
Qed.

Lemma only_starts_die_on_error {A} (f : A -> M process) a :
  only_starts P (f a) -> only_starts P (die_on_error f a).
Proof.
  intros H. unfold die_on_error.
  apply only_starts_bind; [exact H|]. intros p.
  apply only_starts_bind; [|intros; apply only_starts_ret].
  apply only_starts_when, only_starts_sys_exit.
Qed.

End OnlyStarts.

(** ** The decorator *)

(** A decorated function ends the way its body's child ends. *)
Lemma die_on_error_returned {A} (f : A -> M process) a w p w' :
  f a w = (Returned p, w') ->
  die_on_error f a w =
  (if returncode_is_1 p then Exited 1%Z else Returned PyNone, w').
Proof.
  intros H. unfold die_on_error.
  rewrite (bind_returned _ _ _ _ _ H).
  destruct (returncode_is_1 p); reflexivity.
Qed.

Lemma die_on_error_raised {A} (f : A -> M process) a w e w' :
  f a w = (Raised e, w') -> die_on_error f a w = (Raised e, w').
Proof. intros H. unfold die_on_error. exact (bind_raised _ _ _ _ _ H). Qed.

Lemma die_on_error_exited {A} (f : A -> M process) a w c w' :
  f a w = (Exited c, w') -> die_on_error f a w = (Exited c, w').
Proof. intros H. unfold die_on_error. exact (bind_exited _ _ _ _ _ H). Qed.

Lemma subprocess_run_ok cmd w rc :
  spawn (calls w) (Invocation cmd None) = Ok rc ->
  subprocess_run cmd w =
  (Returned (Process cmd rc (Some rc)), started (Invocation cmd None) w).
Proof.
  intros H. unfold subprocess_run. rewrite bind_unfold.
  unfold start. rewrite H. reflexivity.
Qed.

Lemma subprocess_run_err cmd w e :
  spawn (calls w) (Invocation cmd None) = Err e ->
  subprocess_run cmd w = (Raised e, started (Invocation cmd None) w).
Proof.
  intros H. unfold subprocess_run. rewrite bind_unfold.
  unfold start. rewrite H. reflexivity.
Qed.

Lemma run_step_body (s : checked_step) (w : world) :
  run_step s w =
  die_on_error subprocess_run (step_command s) w.
Proof. destruct s; reflexivity. Qed.

Lemma run_step_ok (s : checked_step) (w : world) (rc : Z) :
  spawn (calls w) (Invocation (step_command s) None) = Ok rc ->
  run_step s w =
  (if Z.eqb rc 1 then Exited 1%Z else Returned PyNone,
   started (Invocation (step_command s) None) w).
Proof.
  intros H. rewrite run_step_body.
  rewrite (die_on_error_returned _ _ _ _ _ (subprocess_run_ok _ _ _ H)).
  reflexivity.
Qed.

Lemma run_step_err (s : checked_step) (w : world) (e : exn) :
  spawn (calls w) (Invocation (step_command s) None) = Err e ->
  run_step s w = (Raised e, started (Invocation (step_command s) None) w).
Proof.
  intros H. rewrite run_step_body.
  apply die_on_error_raised, subprocess_run_err, H.
Qed.

(** ** Pattern expansion *)

Lemma expand_loop_strings path patterns files :
  expand_loop (VStr path) (map VStr patterns) files =
  Ok (files ++ map VStr (expansions path patterns)).
Proof.
  unfold expansions. revert files.
  induction patterns as [|pattern rest IH]; intros files; simpl.
  - rewrite app_nil_r. reflexivity.
  - rewrite IH, map_app, app_assoc. reflexivity.
Qed.

Lemma expand_files_list path patterns :
  expand_files (VStr path) (VList (map VStr patterns)) =
  Ok (map VStr (expansions path patterns)).
Proof. unfold expand_files. simpl. apply expand_loop_strings. Qed.

Lemma expand_files_str path pattern :
  expand_files (VStr path) (VStr pattern) =
  expand_files (VStr path) (VList [VStr pattern]).
Proof. reflexivity. Qed.

Lemma expansions_nomatch path patterns :
  Forall (fun pattern => glob (os_path_join path pattern) = []) patterns ->
  expansions path patterns = [].
Proof.
  unfold expansions. induction 1 as [|pattern rest H _ IH]; simpl.
  - reflexivity.
  - rewrite H, IH. reflexivity.
Qed.

Lemma upload_command_shape path clientdir files cmd :
  upload_command path clientdir files = Ok cmd ->
  exists extra, cmd = upload_base clientdir ++ extra.
Proof.
  unfold upload_command. destruct (truthy files).
  - destruct (expand_files path files) as [extra|e]; [|discriminate].
    intros [= <-]. exists extra. reflexivity.
  - intros [= <-]. exists []. rewrite app_nil_r. reflexivity.
Qed.

(** ** The upload step *)

Lemma upload_package_body_ok path clientdir files w cmd rc :
  upload_command path clientdir files = Ok cmd ->
  spawn (calls w) (Invocation cmd (Some path)) = Ok rc ->
  upload_package_body (path, clientdir, files) w =
  (Returned (Process cmd rc (Some rc)), started (Invocation cmd (Some path)) w).
Proof.
  unfold upload_command, upload_package_body. intros Hcmd Hrc.
  rewrite bind_unfold.
  destruct (truthy files).
  - rewrite bind_unfold.
    destruct (expand_files path files) as [extra|e]; [|discriminate].
    injection Hcmd as <-. simpl.
    rewrite bind_unfold. unfold Popen. rewrite bind_unfold.
    unfold start. simpl. rewrite Hrc. reflexivity.
  - injection Hcmd as <-. simpl.
    rewrite bind_unfold. unfold Popen. rewrite bind_unfold.
    unfold start. simpl. rewrite Hrc. reflexivity.
Qed.

Lemma upload_package_body_spawn_err path clientdir files w cmd e :
  upload_command path clientdir files = Ok cmd ->
  spawn (calls w) (Invocation cmd (Some path)) = Err e ->
  upload_package_body (path, clientdir, files) w =
  (Raised e, started (Invocation cmd (Some path)) w).
Proof.
  unfold upload_command, upload_package_body. intros Hcmd Hrc.
  rewrite bind_unfold.
  destruct (truthy files).
  - rewrite bind_unfold.
    destruct (expand_files path files) as [extra|e']; [|discriminate].
    injection Hcmd as <-. simpl.
    rewrite bind_unfold. unfold Popen. rewrite bind_unfold.
    unfold start. simpl. rewrite Hrc. reflexivity.
  - injection Hcmd as <-. simpl.
    rewrite bind_unfold. unfold Popen. rewrite bind_unfold.
    unfold start. simpl. rewrite Hrc. reflexivity.
Qed.

Lemma upload_package_body_cmd_err path clientdir files w e :
  upload_command path clientdir files = Err e ->
  upload_package_body (path, clientdir, files) w = (Raised e, w).
Proof.
  unfold upload_command, upload_package_body. intros Hcmd.
  rewrite bind_unfold.
  destruct (truthy files); [|discriminate].
  rewrite bind_unfold.
  destruct (expand_files path files) as [extra|e']; [discriminate|].
  injection Hcmd as <-. reflexivity.
Qed.

Lemma upload_package_ok path clientdir files w cmd rc :
  upload_command path clientdir files = Ok cmd ->
  spawn (calls w) (Invocation cmd (Some path)) = Ok rc ->
  upload_package path clientdir files w =
  (if Z.eqb rc 1 then Exited 1%Z else Returned PyNone,
   started (Invocation cmd (Some path)) w).
Proof.
  intros Hcmd Hrc. unfold upload_package.
  rewrite (die_on_error_returned _ _ _ _ _
             (upload_package_body_ok _ _ _ _ _ _ Hcmd Hrc)).
  reflexivity.
Qed.

(** ** The validator *)

Lemma truthy_dict_get d k :
  truthy (dict_get d k VNone) = present_nonempty d k.
Proof. unfold dict_get, present_nonempty. destruct (d !! k); reflexivity. Qed.

Lemma is_None_dict_get d k :
  is_None (dict_get d k VNone) = negb (present_not_null d k).
Proof.
  unfold dict_get, present_not_null.
  destruct (d !! k) as [x|]; simpl; [|reflexivity].
  destruct (is_None x); reflexivity.
Qed.

Lemma check_vargs_split_err v w e :
  urlsplit (dict_get v "server" (VStr "")) = Err e ->
  check_vargs v w = (Raised e, w).
Proof.
  intros H. unfold check_vargs. rewrite bind_unfold, H. reflexivity.
Qed.

(** The validator, check by check. *)
Lemma check_vargs_eval v w parsed :
  urlsplit (dict_get v "server" (VStr "")) = Ok parsed ->
  check_vargs v w =
  if negb (uri_ok parsed) then (Exited 1%Z, printed MSG_SERVER w)
  else if negb (present_nonempty v "index") then (Exited 1%Z, printed MSG_INDEX w)
  else if negb (present_nonempty v "username") then (Exited 1%Z, printed MSG_USERNAME w)
  else if negb (present_not_null v "password") then (Exited 1%Z, printed MSG_PASSWORD w)
  else (Returned tt, w).
Proof.
  intros H. unfold check_vargs. rewrite bind_unfold, H. simpl.
  rewrite !truthy_dict_get, is_None_dict_get.
  unfold uri_ok, all_truthy. simpl. rewrite andb_true_r.
  destruct (str_truthy (scheme parsed) && str_truthy (netloc parsed));
    [|reflexivity].
  destruct (present_nonempty v "index"); [|reflexivity].
  destruct (present_nonempty v "username"); [|reflexivity].
  destruct (present_not_null v "password"); reflexivity.
Qed.

(** ** The driver *)

Lemma subscript_some {V} (d : gmap string V) k v w :
  d !! k = Some v -> subscript d k w = (Returned v, w).
Proof. intros H. unfold subscript. rewrite H. reflexivity. Qed.

Lemma subscript_none {V} (d : gmap string V) k w :
  d !! k = None -> subscript d k w = (Raised (KeyError k), w).
Proof. intros H. unfold subscript. rewrite H. reflexivity. Qed.

(** Once validation has passed, [main] is the three checked steps and the
    upload, one after the other. *)
Lemma main_after_validation payload v w server username password index :
  payload !! "vargs" = Some v ->
  check_vargs v w = (Returned tt, w) ->
  v !! "server" = Some server ->
  v !! "username" = Some username ->
  v !! "password" = Some password ->
  v !! "index" = Some index ->
  main payload w =
  (run_step (SelectServer server DEFAULT_CLIENTDIR) ;;
   run_step (Login username password DEFAULT_CLIENTDIR) ;;
   run_step (SelectIndex index DEFAULT_CLIENTDIR) ;;
   upload_step payload v) w.
Proof.
  intros Hv Hck Hs Hu Hp Hi. unfold main.
  rewrite (bind_returned _ _ _ _ _ (subscript_some _ _ _ _ Hv)).
  rewrite (bind_returned _ _ _ _ _ Hck).
  rewrite (bind_returned _ _ _ _ _ (subscript_some _ _ _ _ Hs)).
  change (select_server server DEFAULT_CLIENTDIR)
    with (run_step (SelectServer server DEFAULT_CLIENTDIR)).
  rewrite !(bind_unfold (run_step (SelectServer _ _))).
  destruct (run_step (SelectServer server DEFAULT_CLIENTDIR) w)
    as [[r1|c1|e1] w1]; try reflexivity.
  rewrite (bind_returned _ _ _ _ _ (subscript_some _ _ _ _ Hu)).
  rewrite (bind_returned _ _ _ _ _ (subscript_some _ _ _ _ Hp)).
  change (login username password DEFAULT_CLIENTDIR)
    with (run_step (Login username password DEFAULT_CLIENTDIR)).
  rewrite !(bind_unfold (run_step (Login _ _ _))).
  destruct (run_step (Login username password DEFAULT_CLIENTDIR) w1)
    as [[r2|c2|e2] w2]; try reflexivity.
  rewrite (bind_returned _ _ _ _ _ (subscript_some _ _ _ _ Hi)).
  reflexivity.
Qed.

Lemma upload_package_spawn_err path clientdir files w cmd e :
  upload_command path clientdir files = Ok cmd ->
  spawn (calls w) (Invocation cmd (Some path)) = Err e ->
  upload_package path clientdir files w =
  (Raised e, started (Invocation cmd (Some path)) w).
Proof.
  intros Hcmd Hrc. unfold upload_package.
  apply die_on_error_raised, upload_package_body_spawn_err; assumption.
Qed.

Lemma upload_package_cmd_err path clientdir files w e :
  upload_command path clientdir files = Err e ->
  upload_package path clientdir files w = (Raised e, w).
Proof.
  intros Hcmd. unfold upload_package.
  apply die_on_error_raised, upload_package_body_cmd_err; assumption.
Qed.

(** The child is recorded as started whether or not starting it raised. *)
Lemma upload_package_calls path clientdir files w cmd :
  upload_command path clientdir files = Ok cmd ->
  calls (snd (upload_package path clientdir files w)) =
  calls w ++ [Invocation cmd (Some path)].
Proof.
  intros Hcmd.
  destruct (spawn (calls w) (Invocation cmd (Some path))) as [rc|e] eqn:Hrc.
  - rewrite (upload_package_ok _ _ _ _ _ _ Hcmd Hrc). reflexivity.
  - rewrite (upload_package_spawn_err _ _ _ _ _ _ Hcmd Hrc). reflexivity.
Qed.

(** The upload step depends on [files] through the command only. *)
Lemma upload_package_by_command path clientdir files files' w :
  upload_command path clientdir files = upload_command path clientdir files' ->
  upload_package path clientdir files w = upload_package path clientdir files' w.
Proof.
  intros E.
  destruct (upload_command path clientdir files') as [cmd|e] eqn:Hcmd'.
  - destruct (spawn (calls w) (Invocation cmd (Some path))) as [rc|e] eqn:Hrc.
    + rewrite (upload_package_ok _ _ _ _ _ _ E Hrc).
      rewrite (upload_package_ok _ _ _ _ _ _ Hcmd' Hrc). reflexivity.
    + rewrite (upload_package_spawn_err _ _ _ _ _ _ E Hrc).
      rewrite (upload_package_spawn_err _ _ _ _ _ _ Hcmd' Hrc). reflexivity.
  - rewrite (upload_package_cmd_err _ _ _ _ _ E).
    rewrite (upload_package_cmd_err _ _ _ _ _ Hcmd'). reflexivity.
Qed.

Lemma upload_command_list path clientdir patterns :
  upload_command (VStr path) clientdir (VList (map VStr patterns)) =
  Ok (upload_base clientdir ++ map VStr (expansions path patterns)).
Proof.
  unfold upload_command. destruct patterns as [|pattern rest].
  - reflexivity.
  - change (truthy (VList (map VStr (pattern :: rest)))) with true.
    cbv iota. rewrite expand_files_list. reflexivity.
Qed.

Lemma upload_command_falsy path clientdir files :
  truthy files = false ->
  upload_command path clientdir files = Ok (upload_base clientdir).
Proof. intros H. unfold upload_command. rewrite H. reflexivity. Qed.

(** ** No command but the four *)

Lemma only_starts_run_step (s : checked_step) :
  only_starts not_create_index (run_step s).
Proof.
  assert (E : run_step s = die_on_error subprocess_run (step_command s))
    by (destruct s; reflexivity).
  rewrite E. apply only_starts_die_on_error. unfold subprocess_run.
  apply only_starts_bind; [|intros; apply only_starts_ret].
  apply only_starts_start. destruct s; reflexivity.
Qed.

Lemma only_starts_upload_package path clientdir files :
  only_starts not_create_index (upload_package path clientdir files).
Proof.
  unfold upload_package. apply only_starts_die_on_error. intros w.
  destruct (upload_command path clientdir files) as [cmd|e] eqn:Hcmd.
  - destruct (upload_command_shape _ _ _ _ Hcmd) as [extra ->].
    exists [Invocation (upload_base clientdir ++ extra) (Some path)].
    split; [|repeat constructor].
    destruct (spawn (calls w)
                (Invocation (upload_base clientdir ++ extra) (Some path)))
      as [rc|e] eqn:Hrc.
    + rewrite (upload_package_body_ok _ _ _ _ _ _ Hcmd Hrc). reflexivity.
    + rewrite (upload_package_body_spawn_err _ _ _ _ _ _ Hcmd Hrc). reflexivity.
  - exists []. rewrite (upload_package_body_cmd_err _ _ _ _ _ Hcmd).
    rewrite app_nil_r. split; [reflexivity|constructor].
Qed.

Lemma only_starts_check_vargs P v : only_starts P (check_vargs v).
Proof.
  unfold check_vargs.
  apply only_starts_bind; [apply only_starts_lift|]. intros parsed.
  repeat (apply only_starts_bind; [|intros _]);
    apply only_starts_when;
    (apply only_starts_bind;
     [apply only_starts_print|intros; apply only_starts_sys_exit]).
Qed.

Lemma only_starts_main payload : only_starts not_create_index (main payload).
Proof.
  unfold main.
  repeat first
    [ apply only_starts_ret
    | apply only_starts_subscript
    | apply only_starts_check_vargs
    | apply (only_starts_run_step (SelectServer _ _))
    | apply (only_starts_run_step (Login _ _ _))
    | apply (only_starts_run_step (SelectIndex _ _))
    | apply only_starts_upload_package
    | apply only_starts_bind; [|intros ?] ].
Qed.

(** ** The failure policy *)

(** C2.  For each checked step ([select_server], [login], [select_index]):
    when its child ends with status exactly 1, the step calls
    [sys.exit(1)] and nothing that follows it runs; when the child ends
    with any other status (0, 2, a negative one, ...) the step returns
    and whatever statement follows runs, in the world where just this
    child has been started. *)
Theorem checked_step_exit_policy (s : checked_step) (w : world) (rc : Z) :
  spawn (calls w) (Invocation (step_command s) None) = Ok rc ->
  (rc = 1%Z ->
     run_step s w = (Exited 1%Z, started (Invocation (step_command s) None) w)
     /\ forall (B : Type) (next : M B),
          (run_step s ;; next) w =
          (Exited 1%Z, started (Invocation (step_command s) None) w))
  /\ (rc <> 1%Z ->
       run_step s w =
       (Returned PyNone, started (Invocation (step_command s) None) w)
       /\ forall (B : Type) (next : M B),
            (run_step s ;; next) w =
            next (started (Invocation (step_command s) None) w)).
Proof.
  intros H. pose proof (run_step_ok s w rc H) as E. split; intros Hrc.
  - subst rc. simpl in E. split; [exact E|].
    intros B next. exact (bind_exited _ _ _ _ _ E).
  - apply Z.eqb_neq in Hrc. rewrite Hrc in E. split; [exact E|].
    intros B next. exact (bind_returned _ _ _ _ _ E).
Qed.

(** C1 (amended).  [upload_package] carries the [die_on_error] decorator
    like the setup steps: when the upload child ends with status exactly
    1 the function calls [sys.exit(1)]; for every other status, non-zero
    ones included, it returns normally. *)
Theorem upload_package_exit_policy path clientdir files w cmd rc :
  upload_command path clientdir files = Ok cmd ->
  spawn (calls w) (Invocation cmd (Some path)) = Ok rc ->
  (rc = 1%Z ->
     upload_package path clientdir files w =
     (Exited 1%Z, started (Invocation cmd (Some path)) w))
  /\ (rc <> 1%Z ->
       upload_package path clientdir files w =
       (Returned PyNone, started (Invocation cmd (Some path)) w)).
Proof.
  intros Hcmd Hspawn.
  pose proof (upload_package_ok _ _ _ _ _ _ Hcmd Hspawn) as E.
  split; intros Hrc.
  - subst rc. exact E.
  - apply Z.eqb_neq in Hrc. rewrite Hrc in E. exact E.
Qed.

(** C8.  When the upload child has ended, the body of [upload_package]
    returns the process handle, whose [returncode] is the child's status;
    the decorated function the callers see discards it: it never returns a
    handle, and returns [None] whenever the status is not 1. *)
Theorem upload_package_drops_handle path clientdir files w cmd rc :
  upload_command path clientdir files = Ok cmd ->
  spawn (calls w) (Invocation cmd (Some path)) = Ok rc ->
  upload_package_body (path, clientdir, files) w =
    (Returned (Process cmd rc (Some rc)), started (Invocation cmd (Some path)) w)
  /\ (forall p, fst (upload_package path clientdir files w) <> Returned (PyProcess p))
  /\ (rc <> 1%Z -> fst (upload_package path clientdir files w) = Returned PyNone).
Proof.
  intros Hcmd Hspawn.
  pose proof (upload_package_ok _ _ _ _ _ _ Hcmd Hspawn) as E.
  split; [apply upload_package_body_ok; assumption|]. split.
  - intros p. rewrite E. simpl. destruct (Z.eqb rc 1); discriminate.
  - intros Hrc. apply Z.eqb_neq in Hrc. rewrite E, Hrc. reflexivity.
Qed.

(** ** The upload command *)

(** C7.  When [files] is absent ([None]) or empty, [upload_package] starts
    exactly one child, [devpi upload --clientdir <clientdir> --from-dir
    --no-vcs], with no further argument and with the workspace path as its
    working directory. *)
Theorem upload_without_patterns path clientdir files w :
  truthy files = false ->
  calls (snd (upload_package path clientdir files w)) =
  calls w ++
  [Invocation [VStr "devpi"; VStr "upload"; VStr "--clientdir"; clientdir;
               VStr "--from-dir"; VStr "--no-vcs"] (Some path)].
Proof.
  intros H. apply upload_package_calls, upload_command_falsy, H.
Qed.

(** C6.  For a workspace path and a non-empty list of patterns, the
    arguments that follow the base upload command are the glob matches of
    each pattern joined with the path, concatenated in pattern order and
    then match order, nothing removed; a single non-empty string is
    handled as the list holding it. *)
Theorem upload_files_expanded (path : string) clientdir (patterns : list string) w :
  patterns <> [] ->
  calls (snd (upload_package (VStr path) clientdir (VList (map VStr patterns)) w)) =
  calls w ++
  [Invocation
     ([VStr "devpi"; VStr "upload"; VStr "--clientdir"; clientdir;
       VStr "--from-dir"; VStr "--no-vcs"]
      ++ map VStr (concat (map (fun pattern => glob (os_path_join path pattern))
                               patterns)))
     (Some (VStr path))]
  /\ forall pattern : string,
       pattern <> "" ->
       upload_package (VStr path) clientdir (VStr pattern) w =
       upload_package (VStr path) clientdir (VList [VStr pattern]) w.
Proof.
  intros _. split.
  - apply upload_package_calls, upload_command_list.
  - intros pattern Hne. apply upload_package_by_command.
    unfold upload_command. destruct pattern; [contradiction|reflexivity].
Qed.

(** C10.  For a non-empty list of patterns none of which matches a file,
    the upload step does what it does when no pattern is given: the one
    child it starts is the base command, with no file argument. *)
Theorem upload_unmatched_patterns (path : string) clientdir (patterns : list string) w :
  patterns <> [] ->
  Forall (fun pattern => glob (os_path_join path pattern) = []) patterns ->
  upload_package (VStr path) clientdir (VList (map VStr patterns)) w =
  upload_package (VStr path) clientdir VNone w
  /\ calls (snd (upload_package (VStr path) clientdir (VList (map VStr patterns)) w)) =
     calls w ++
     [Invocation [VStr "devpi"; VStr "upload"; VStr "--clientdir"; clientdir;
                  VStr "--from-dir"; VStr "--no-vcs"] (Some (VStr path))].
Proof.
  intros _ Hnone.
  assert (E : upload_command (VStr path) clientdir (VList (map VStr patterns)) =
              Ok (upload_base clientdir)).
  { rewrite upload_command_list, (expansions_nomatch _ _ Hnone).
    reflexivity. }
  split.
  - apply upload_package_by_command. rewrite E. reflexivity.
  - apply upload_package_calls, E.
Qed.

(** ** Validation *)

(** C5.  The validator checks the server URI, then the index, then the
    username, then the password.  The first check that fails prints its
    own message, and only that one, and exits with code 1 whatever the
    later fields hold.  The index and the username must be present and
    non-empty; the password must be present and not [None], and the empty
    string is a password that passes. *)
Theorem check_vargs_order v w parsed :
  urlsplit (dict_get v "server" (VStr "")) = Ok parsed ->
  (uri_ok parsed = false ->
     check_vargs v w = (Exited 1%Z, printed MSG_SERVER w))
  /\ (uri_ok parsed = true ->
       present_nonempty v "index" = false ->
       check_vargs v w = (Exited 1%Z, printed MSG_INDEX w))
  /\ (uri_ok parsed = true ->
       present_nonempty v "index" = true ->
       present_nonempty v "username" = false ->
       check_vargs v w = (Exited 1%Z, printed MSG_USERNAME w))
  /\ (uri_ok parsed = true ->
       present_nonempty v "index" = true ->
       present_nonempty v "username" = true ->
       present_not_null v "password" = false ->
       check_vargs v w = (Exited 1%Z, printed MSG_PASSWORD w))
  /\ (uri_ok parsed = true ->
       present_nonempty v "index" = true ->
       present_nonempty v "username" = true ->
       present_not_null v "password" = true ->
       check_vargs v w = (Returned tt, w))
  /\ (v !! "index" = Some (VStr "") -> present_nonempty v "index" = false)
  /\ (v !! "username" = Some (VStr "") -> present_nonempty v "username" = false)
  /\ (v !! "password" = Some (VStr "") -> present_not_null v "password" = true)
  /\ (present_not_null v "password" = false <->
      v !! "password" = None \/ v !! "password" = Some VNone).
Proof.
  intros H. pose proof (check_vargs_eval v w parsed H) as E.
  repeat split.
  - intros H1. rewrite E, H1. reflexivity.
  - intros H1 H2. rewrite E, H1, H2. reflexivity.
  - intros H1 H2 H3. rewrite E, H1, H2, H3. reflexivity.
  - intros H1 H2 H3 H4. rewrite E, H1, H2, H3, H4. reflexivity.
  - intros H1 H2 H3 H4. rewrite E, H1, H2, H3, H4. reflexivity.
  - intros Hk. unfold present_nonempty. rewrite Hk. reflexivity.
  - intros Hk. unfold present_nonempty. rewrite Hk. reflexivity.
  - intros Hk. unfold present_not_null. rewrite Hk. reflexivity.
  - unfold present_not_null.
    destruct (v !! "password") as [[| | | |]|]; simpl; intros; auto; discriminate.
  - unfold present_not_null.
    intros [Hk|Hk]; rewrite Hk; reflexivity.
Qed.

(** C9 (amended).  The validator reads its keys with [get], so on every
    mapping it raises nothing from key access: the only exception that can
    escape it is the one [urlsplit] raised on the server value.  Whenever
    [urlsplit] answers, the validator either returns, leaving the world as
    it was, or prints one line and exits with code 1.  A mapping without
    [server] is validated as if [server] were the empty string, which fails
    the URI check. *)
Theorem check_vargs_total v w :
  (forall e, fst (check_vargs v w) = Raised e ->
             urlsplit (dict_get v "server" (VStr "")) = Err e)
  /\ (forall parsed,
        urlsplit (dict_get v "server" (VStr "")) = Ok parsed ->
        check_vargs v w = (Returned tt, w)
        \/ exists msg, check_vargs v w = (Exited 1%Z, printed msg w))
  /\ (v !! "server" = None ->
      check_vargs v w = check_vargs (<["server" := VStr ""]> v) w)
  /\ (v !! "server" = None ->
      urlsplit (VStr "") = Ok (mkSplitResult "" "") ->
      check_vargs v w = (Exited 1%Z, printed MSG_SERVER w)).
Proof.
  repeat split.
  - intros e He.
    destruct (urlsplit (dict_get v "server" (VStr ""))) as [parsed|e'] eqn:Hs.
    + rewrite (check_vargs_eval v w parsed Hs) in He.
      repeat match type of He with
             | context [if ?c then _ else _] => destruct c
             end; discriminate.
    + rewrite (check_vargs_split_err v w e' Hs) in He.
      simpl in He. congruence.
  - intros parsed Hs. rewrite (check_vargs_eval v w parsed Hs).
    repeat match goal with
           | |- context [if ?c then _ else _] => destruct c
           end; eauto.
  - intros Hk. unfold check_vargs, dict_get.
    rewrite lookup_insert_eq, Hk.
    rewrite !lookup_insert_ne by discriminate. reflexivity.
  - intros Hk Hs.
    assert (Hs' : urlsplit (dict_get v "server" (VStr "")) =
                  Ok (mkSplitResult "" "")).
    { unfold dict_get. rewrite Hk. exact Hs. }
    rewrite (check_vargs_eval v w _ Hs'). reflexivity.
Qed.

Lemma check_vargs_calls v w :
  check_vargs v w = (Returned tt, w)
  \/ (calls (snd (check_vargs v w)) = calls w
      /\ forall u, fst (check_vargs v w) <> Returned u).
Proof.
  destruct (urlsplit (dict_get v "server" (VStr ""))) as [parsed|e] eqn:Hs.
  - rewrite (check_vargs_eval v w parsed Hs).
    repeat match goal with
           | |- context [if ?c then _ else _] => destruct c
           end; auto; right; (split; [reflexivity|discriminate]).
  - rewrite (check_vargs_split_err v w e Hs).
    right. split; [reflexivity|discriminate].
Qed.

(** C3.  [main] validates before it hands any command to [subprocess]:
    if a command was issued, validation had returned.  And for a mapping
    that lacks [server], [index], [username] or [password], or whose
    server has no scheme or no network location, the run exits with code
    1 with one line printed and no command issued.  ([urlsplit] is taken
    to answer on the server value and to find nothing in the empty
    string.) *)
Theorem invalid_vargs_start_nothing payload v w :
  payload !! "vargs" = Some v ->
  (calls (snd (main payload w)) <> calls w ->
     check_vargs v w = (Returned tt, w))
  /\ forall parsed,
      urlsplit (VStr "") = Ok (mkSplitResult "" "") ->
      urlsplit (dict_get v "server" (VStr "")) = Ok parsed ->
      v !! "server" = None \/ v !! "index" = None \/ v !! "username" = None
      \/ v !! "password" = None
      \/ scheme parsed = "" \/ netloc parsed = "" ->
      fst (main payload w) = Exited 1%Z
      /\ calls (snd (main payload w)) = calls w
      /\ exists msg, stdout (snd (main payload w)) = stdout w ++ [msg].
Proof.
  intros Hv.
  assert (Hmain : forall o w', check_vargs v w = (o, w') ->
                  (forall u, o <> Returned u) ->
                  exists o', main payload w = (o', w') /\
                             (forall c, o = Exited c -> o' = Exited c)).
  { intros o w' E Ho. unfold main.
    rewrite (bind_returned _ _ _ _ _ (subscript_some _ _ _ _ Hv)).
    rewrite bind_unfold, E.
    destruct o as [u|c|e].
    - exfalso. exact (Ho u eq_refl).
    - exists (Exited c). split; [reflexivity|]. intros c' [= <-]. reflexivity.
    - exists (Raised e). split; [reflexivity|]. intros c' [=]. }
  split.
  - intros Hcalls.
    destruct (check_vargs_calls v w) as [E|[Hc Hn]]; [exact E|].
    exfalso. apply Hcalls.
    destruct (check_vargs v w) as [o w'] eqn:E.
    destruct (Hmain o w' eq_refl Hn) as (o' & Em & _).
    rewrite Em. exact Hc.
  - intros parsed Hempty Hs Hbad.
    assert (Hfail : exists msg,
               check_vargs v w = (Exited 1%Z, printed msg w)).
    { pose proof (check_vargs_eval v w parsed Hs) as E.
      assert (Hcases : uri_ok parsed = false
                       \/ present_nonempty v "index" = false
                       \/ present_nonempty v "username" = false
                       \/ present_not_null v "password" = false).
      { unfold uri_ok, present_nonempty, present_not_null.
        destruct Hbad as [Hk|[Hk|[Hk|[Hk|[Hk|Hk]]]]].
        - left. unfold dict_get in Hs. rewrite Hk in Hs. simpl in Hs.
          rewrite Hempty in Hs. injection Hs as <-. reflexivity.
        - right; left. rewrite Hk. reflexivity.
        - right; right; left. rewrite Hk. reflexivity.
        - right; right; right. rewrite Hk. reflexivity.
        - left. rewrite Hk. reflexivity.
        - left. rewrite Hk. apply andb_false_r. }
      rewrite E.
      destruct (uri_ok parsed); [|eauto].
      destruct (present_nonempty v "index"); [|eauto].
      destruct (present_nonempty v "username"); [|eauto].
      destruct (present_not_null v "password"); [|eauto].
      destruct Hcases as [?|[?|[?|?]]]; discriminate. }
    destruct Hfail as [msg E].
    destruct (Hmain _ _ E ltac:(discriminate)) as (o' & Em & Ho').
    rewrite Em, (Ho' _ eq_refl). simpl. eauto.
Qed.

(** ** The run *)

Lemma run_step_pass (s : checked_step) (w : world) (rc : Z) :
  spawn (calls w) (Invocation (step_command s) None) = Ok rc ->
  rc <> 1%Z ->
  run_step s w = (Returned PyNone, started (Invocation (step_command s) None) w).
Proof.
  intros H Hrc. rewrite (run_step_ok s w rc H).
  apply Z.eqb_neq in Hrc. rewrite Hrc. reflexivity.
Qed.

Lemma upload_step_calls payload v ws path w cmd :
  payload !! "workspace" = Some ws ->
  ws !! "path" = Some path ->
  upload_command path DEFAULT_CLIENTDIR (dict_get v "files" VNone) = Ok cmd ->
  calls (snd (upload_step payload v w)) = calls w ++ [Invocation cmd (Some path)].
Proof.
  intros Hws Hpath Hcmd. unfold upload_step.
  rewrite (bind_returned _ _ _ _ _ (subscript_some _ _ _ _ Hws)).
  rewrite (bind_returned _ _ _ _ _ (subscript_some _ _ _ _ Hpath)).
  rewrite bind_unfold.
  pose proof (upload_package_calls _ _ _ w _ Hcmd) as E.
  destruct (upload_package path DEFAULT_CLIENTDIR (dict_get v "files" VNone) w)
    as [[r|c|e] w1]; exact E.
Qed.

Lemma str_truthy_nonempty (s : string) : s <> "" -> str_truthy s = true.
Proof. destruct s; [contradiction|reflexivity]. Qed.

(** C4 (amended).  [main] never starts [devpi index -c], whatever the
    payload and whatever the children do.  For a fully valid payload, when
    each of the three setup children starts and ends with a status other
    than 1, exactly four children are started, in this order: use(server),
    login(username, password), use(index), upload. *)
Theorem main_issues_four_commands payload w :
  (exists new,
      calls (snd (main payload w)) = calls w ++ new
      /\ Forall (fun inv => is_create_index inv = false) new)
  /\ forall v ws (server index username password path : string)
        parsed file_args rc1 rc2 rc3,
      payload !! "vargs" = Some v ->
      payload !! "workspace" = Some ws ->
      ws !! "path" = Some (VStr path) ->
      v !! "server" = Some (VStr server) ->
      urlsplit (VStr server) = Ok parsed ->
      scheme parsed <> "" ->
      netloc parsed <> "" ->
      v !! "index" = Some (VStr index) ->
      index <> "" ->
      v !! "username" = Some (VStr username) ->
      username <> "" ->
      v !! "password" = Some (VStr password) ->
      upload_command (VStr path) DEFAULT_CLIENTDIR (dict_get v "files" VNone) =
        Ok (argv (upload_call (VStr path) file_args)) ->
      spawn (calls w) (use_call (VStr server)) = Ok rc1 ->
      rc1 <> 1%Z ->
      spawn (calls w ++ [use_call (VStr server)])
            (login_call (VStr username) (VStr password)) = Ok rc2 ->
      rc2 <> 1%Z ->
      spawn (calls w ++ [use_call (VStr server);
                         login_call (VStr username) (VStr password)])
            (use_call (VStr index)) = Ok rc3 ->
      rc3 <> 1%Z ->
      calls (snd (main payload w)) =
      calls w ++ [use_call (VStr server);
                  login_call (VStr username) (VStr password);
                  use_call (VStr index);
                  upload_call (VStr path) file_args].
Proof.
  split; [apply only_starts_main|].
  intros v ws server index username password path parsed file_args rc1 rc2 rc3
         Hv Hws Hpath Hserver Hsplit Hscheme Hnetloc Hindex Hindex' Huser Huser'
         Hpass Hcmd H1 Hrc1 H2 Hrc2 H3 Hrc3.
  assert (Hck : check_vargs v w = (Returned tt, w)).
  { assert (Hs : urlsplit (dict_get v "server" (VStr "")) = Ok parsed).
    { unfold dict_get. rewrite Hserver. exact Hsplit. }
    rewrite (check_vargs_eval v w parsed Hs).
    unfold uri_ok, present_nonempty, present_not_null.
    rewrite Hindex, Huser, Hpass. simpl.
    rewrite !str_truthy_nonempty by assumption. reflexivity. }
  rewrite (main_after_validation _ _ _ _ _ _ _ Hv Hck Hserver Huser Hpass Hindex).
  set (s1 := SelectServer (VStr server) DEFAULT_CLIENTDIR).
  set (s2 := Login (VStr username) (VStr password) DEFAULT_CLIENTDIR).
  set (s3 := SelectIndex (VStr index) DEFAULT_CLIENTDIR).
  set (w1 := started (Invocation (step_command s1) None) w).
  set (w2 := started (Invocation (step_command s2) None) w1).
  assert (E1 : run_step s1 w = (Returned PyNone, w1))
    by (apply (run_step_pass s1 w rc1); assumption).
  assert (E2 : run_step s2 w1 =
               (Returned PyNone, w2))
    by (apply (run_step_pass s2 w1 rc2); assumption).
  assert (E3 : run_step s3 w2 =
               (Returned PyNone, started (Invocation (step_command s3) None) w2)).
  { apply (run_step_pass s3 w2 rc3); [|assumption].
    simpl. rewrite <- app_assoc. exact H3. }
  rewrite (bind_returned _ _ _ _ _ E1).
  rewrite (bind_returned _ _ _ _ _ E2).
  rewrite (bind_returned _ _ _ _ _ E3).
  rewrite (upload_step_calls _ _ _ _ _ _ Hws Hpath Hcmd).
  simpl. rewrite <- !app_assoc. reflexivity.
Qed.

(** ** What every run keeps *)

Section Invariants.

Lemma exits_only_1_bind {A B} (m : M A) (k : A -> M B) :
  exits_only_1 m -> (forall a, exits_only_1 (k a)) -> exits_only_1 (m ≫= k).
Proof.
  intros Hm Hk w c. rewrite bind_unfold. pose proof (Hm w) as Hw.
  destruct (m w) as [[a|c'|e] w1]; simpl in *.
  - apply Hk.
  - intros [= <-]. apply Hw. reflexivity.
  - discriminate.
Qed.

Lemma exits_only_1_never {A} (m : M A) :
  (forall w c, fst (m w) <> Exited c) -> exits_only_1 m.
Proof. intros H w c E. destruct (H w c E). Qed.

Lemma exits_only_1_lift {A} (r : result A) : exits_only_1 (lift r).
Proof. apply exits_only_1_never. destruct r; discriminate. Qed.

Lemma exits_only_1_subscript {V} (d : gmap string V) k :
  exits_only_1 (subscript d k).
Proof.
  apply exits_only_1_never. unfold subscript.
  destruct (d !! k); discriminate.
Qed.

Lemma exits_only_1_die_on_error {A} (f : A -> M process) a :
  exits_only_1 (f a) -> exits_only_1 (die_on_error f a).
Proof.
  intros H w c. pose proof (H w) as Hw.
  destruct (f a w) as [[p|c'|e] w1] eqn:E; simpl in Hw.
  - rewrite (die_on_error_returned _ _ _ _ _ E). simpl.
    destruct (returncode_is_1 p); [congruence|discriminate].
  - rewrite (die_on_error_exited _ _ _ _ _ E). simpl.
    intros [= <-]. apply Hw. reflexivity.
  - rewrite (die_on_error_raised _ _ _ _ _ E). discriminate.
Qed.

Lemma exits_only_1_start cmd dir : exits_only_1 (start cmd dir).
Proof.
  apply exits_only_1_never. intros w c. unfold start.
  destruct (spawn (calls w) (Invocation cmd dir)); discriminate.
Qed.

Lemma exits_only_1_subprocess_run cmd : exits_only_1 (subprocess_run cmd).
Proof.
  unfold subprocess_run. apply exits_only_1_bind; [apply exits_only_1_start|].
  intros rc. apply exits_only_1_never. discriminate.
Qed.

Lemma exits_only_1_run_step (s : checked_step) : exits_only_1 (run_step s).
Proof.
  assert (E : run_step s = die_on_error subprocess_run (step_command s))
    by (destruct s; reflexivity).
  rewrite E. apply exits_only_1_die_on_error, exits_only_1_subprocess_run.
Qed.

Lemma exits_only_1_upload_package path clientdir files :
  exits_only_1 (upload_package path clientdir files).
Proof.
  unfold upload_package. apply exits_only_1_die_on_error.
  apply exits_only_1_never. intros w c.
  destruct (upload_command path clientdir files) as [cmd|e] eqn:Hcmd.
  - destruct (spawn (calls w) (Invocation cmd (Some path))) as [rc|e] eqn:Hrc.
    + rewrite (upload_package_body_ok _ _ _ _ _ _ Hcmd Hrc). discriminate.
    + rewrite (upload_package_body_spawn_err _ _ _ _ _ _ Hcmd Hrc). discriminate.
  - rewrite (upload_package_body_cmd_err _ _ _ _ _ Hcmd). discriminate.
Qed.

Lemma exits_only_1_check_vargs v : exits_only_1 (check_vargs v).
Proof.
  intros w c.
  destruct (urlsplit (dict_get v "server" (VStr ""))) as [parsed|e] eqn:Hs.
  - rewrite (check_vargs_eval v w parsed Hs).
    repeat match goal with
           | |- context [if ?b then _ else _] => destruct b
           end; simpl; congruence.
  - rewrite (check_vargs_split_err v w e Hs). discriminate.
Qed.

Lemma exits_only_1_main_steps payload v : exits_only_1 (main_steps payload v).
Proof.
  unfold main_steps.
  repeat first
    [ apply exits_only_1_subscript
    | apply (exits_only_1_run_step (SelectServer _ _))
    | apply (exits_only_1_run_step (Login _ _ _))
    | apply (exits_only_1_run_step (SelectIndex _ _))
    | apply exits_only_1_upload_package
    | apply exits_only_1_bind; [|intros ?]
    | apply exits_only_1_never; discriminate ].
Qed.

Lemma main_unfold payload w :
  main payload w =
  (vargs ← subscript payload "vargs";
   check_vargs vargs ;; main_steps payload vargs) w.
Proof. reflexivity. Qed.

(** X1.  Whatever the payload and whatever the children do, when [main]
    ends through [sys.exit] the exit code is 1. *)
Theorem main_exit_code_is_1 payload w c :
  fst (main payload w) = Exited c -> c = 1%Z.
Proof.
  revert w c. change (exits_only_1 (main payload)).
  unfold main.
  apply exits_only_1_bind; [apply exits_only_1_subscript|]. intros v.
  apply exits_only_1_bind; [apply exits_only_1_check_vargs|]. intros _.
  apply (exits_only_1_main_steps payload v).
Qed.

Lemma silent_bind {A B} (m : M A) (k : A -> M B) :
  silent m -> (forall a, silent (k a)) -> silent (m ≫= k).
Proof.
  intros Hm Hk w. rewrite bind_unfold. pose proof (Hm w) as Hw.
  destruct (m w) as [[a|c|e] w1]; simpl in *.
  - rewrite Hk. exact Hw.
  - exact Hw.
  - exact Hw.
Qed.

Lemma silent_pure {A} (m : M A) : (forall w, snd (m w) = w) -> silent m.
Proof. intros H w. rewrite H. reflexivity. Qed.

Lemma silent_subscript {V} (d : gmap string V) k : silent (subscript d k).
Proof. apply silent_pure. intros w. unfold subscript. destruct (d !! k); reflexivity. Qed.

Lemma silent_lift {A} (r : result A) : silent (lift r).
Proof. apply silent_pure. destruct r; reflexivity. Qed.

Lemma silent_start cmd dir : silent (start cmd dir).
Proof.
  intros w. unfold start.
  destruct (spawn (calls w) (Invocation cmd dir)); reflexivity.
Qed.

Lemma silent_die_on_error {A} (f : A -> M process) a :
  silent (f a) -> silent (die_on_error f a).
Proof.
  intros H. unfold die_on_error. apply silent_bind; [exact H|]. intros p.
  apply silent_bind; [|intros; apply silent_pure; reflexivity].
  apply silent_pure. intros w. destruct (returncode_is_1 p); reflexivity.
Qed.

Lemma silent_subprocess_run cmd : silent (subprocess_run cmd).
Proof.
  unfold subprocess_run. apply silent_bind; [apply silent_start|].
  intros rc. apply silent_pure. reflexivity.
Qed.

Lemma silent_run_step (s : checked_step) : silent (run_step s).
Proof.
  assert (E : run_step s = die_on_error subprocess_run (step_command s))
    by (destruct s; reflexivity).
  rewrite E. apply silent_die_on_error, silent_subprocess_run.
Qed.

Lemma silent_upload_package path clientdir files :
  silent (upload_package path clientdir files).
Proof.
  unfold upload_package. apply silent_die_on_error. intros w.
  destruct (upload_command path clientdir files) as [cmd|e] eqn:Hcmd.
  - destruct (spawn (calls w) (Invocation cmd (Some path))) as [rc|e] eqn:Hrc.
    + rewrite (upload_package_body_ok _ _ _ _ _ _ Hcmd Hrc). reflexivity.
    + rewrite (upload_package_body_spawn_err _ _ _ _ _ _ Hcmd Hrc). reflexivity.
  - rewrite (upload_package_body_cmd_err _ _ _ _ _ Hcmd). reflexivity.
Qed.

Lemma silent_main_steps payload v : silent (main_steps payload v).
Proof.
  unfold main_steps.
  repeat first
    [ apply silent_subscript
    | apply (silent_run_step (SelectServer _ _))
    | apply (silent_run_step (Login _ _ _))
    | apply (silent_run_step (SelectIndex _ _))
    | apply silent_upload_package
    | apply silent_bind; [|intros ?]
    | apply silent_pure; reflexivity ].
Qed.

(** X2.  [main] prints at most one line.  Either it prints nothing, or it
    prints one of the four validation messages, and then it has exited with
    code 1 without issuing a command. *)
Theorem main_prints_at_most_one_line payload w :
  stdout (snd (main payload w)) = stdout w
  \/ exists msg,
      In msg [MSG_SERVER; MSG_INDEX; MSG_USERNAME; MSG_PASSWORD]
      /\ main payload w = (Exited 1%Z, printed msg w).
Proof.
  rewrite main_unfold.
  destruct (payload !! "vargs") as [v|] eqn:Hv.
  - rewrite (bind_returned _ _ _ _ _ (subscript_some _ _ _ _ Hv)).
    destruct (urlsplit (dict_get v "server" (VStr ""))) as [parsed|e] eqn:Hs.
    + rewrite bind_unfold, (check_vargs_eval v w parsed Hs).
      destruct (negb (uri_ok parsed));
        [right; exists MSG_SERVER; simpl; auto|].
      destruct (negb (present_nonempty v "index"));
        [right; exists MSG_INDEX; simpl; auto|].
      destruct (negb (present_nonempty v "username"));
        [right; exists MSG_USERNAME; simpl; auto|].
      destruct (negb (present_not_null v "password"));
        [right; exists MSG_PASSWORD; simpl; auto 6|].
      left. apply silent_main_steps.
    + rewrite (bind_raised _ _ _ _ _ (check_vargs_split_err v w e Hs)).
      left. reflexivity.
  - rewrite (bind_raised _ _ _ _ _ (subscript_none _ _ _ Hv)).
    left. reflexivity.
Qed.

Lemma run_step_calls (s : checked_step) (w : world) :
  calls (snd (run_step s w)) = calls w ++ [Invocation (step_command s) None].
Proof.
  destruct (spawn (calls w) (Invocation (step_command s) None)) as [rc|e] eqn:H.
  - rewrite (run_step_ok s w rc H). reflexivity.
  - rewrite (run_step_err s w e H). reflexivity.
Qed.

Lemma dict_get_some d k dflt x : d !! k = Some x -> dict_get d k dflt = x.
Proof. intros H. unfold dict_get. rewrite H. reflexivity. Qed.

(** The part of the plan [main_steps] gets through. *)
Lemma main_steps_follow_plan payload v w :
  payload !! "vargs" = Some v ->
  exists new,
    calls (snd (main_steps payload v w)) = calls w ++ new
    /\ new `prefix_of` plan payload.
Proof.
  intros Hv. unfold plan. rewrite Hv. unfold main_steps.
  destruct (v !! "server") as [server|] eqn:Hs.
  2:{ rewrite (bind_raised _ _ _ _ _ (subscript_none _ _ _ Hs)).
      exists []. rewrite app_nil_r. split; [reflexivity|apply prefix_nil]. }
  rewrite (bind_returned _ _ _ _ _ (subscript_some _ _ _ _ Hs)).
  rewrite (dict_get_some _ _ _ _ Hs).
  change (select_server server DEFAULT_CLIENTDIR)
    with (run_step (SelectServer server DEFAULT_CLIENTDIR)).
  rewrite (bind_unfold (run_step _)).
  pose proof (run_step_calls (SelectServer server DEFAULT_CLIENTDIR) w) as C1.
  destruct (run_step (SelectServer server DEFAULT_CLIENTDIR) w)
    as [[r1|c1|e1] w1]; simpl in C1;
    try (exists [use_call server]; split; [exact C1|eexists; reflexivity]).
  destruct (v !! "username") as [username|] eqn:Hu.
  2:{ rewrite (bind_raised _ _ _ _ _ (subscript_none _ _ _ Hu)).
      exists [use_call server]. split; [exact C1|eexists; reflexivity]. }
  rewrite (bind_returned _ _ _ _ _ (subscript_some _ _ _ _ Hu)).
  rewrite (dict_get_some _ _ _ _ Hu).
  destruct (v !! "password") as [password|] eqn:Hp.
  2:{ rewrite (bind_raised _ _ _ _ _ (subscript_none _ _ _ Hp)).
      exists [use_call server]. split; [exact C1|eexists; reflexivity]. }
  rewrite (bind_returned _ _ _ _ _ (subscript_some _ _ _ _ Hp)).
  rewrite (dict_get_some _ _ _ _ Hp).
  change (login username password DEFAULT_CLIENTDIR)
    with (run_step (Login username password DEFAULT_CLIENTDIR)).
  rewrite (bind_unfold (run_step _)).
  pose proof (run_step_calls (Login username password DEFAULT_CLIENTDIR) w1) as C2.
  rewrite C1, <- app_assoc in C2.
  destruct (run_step (Login username password DEFAULT_CLIENTDIR) w1)
    as [[r2|c2|e2] w2]; simpl in C2;
    try (exists [use_call server; login_call username password];
         split; [exact C2|eexists; reflexivity]).
  destruct (v !! "index") as [index|] eqn:Hi.
  2:{ rewrite (bind_raised _ _ _ _ _ (subscript_none _ _ _ Hi)).
      exists [use_call server; login_call username password].
      split; [exact C2|eexists; reflexivity]. }
  rewrite (bind_returned _ _ _ _ _ (subscript_some _ _ _ _ Hi)).
  rewrite (dict_get_some _ _ _ _ Hi).
  change (select_index index DEFAULT_CLIENTDIR)
    with (run_step (SelectIndex index DEFAULT_CLIENTDIR)).
  rewrite (bind_unfold (run_step _)).
  pose proof (run_step_calls (SelectIndex index DEFAULT_CLIENTDIR) w2) as C3.
  rewrite C2, <- app_assoc in C3.
  destruct (run_step (SelectIndex index DEFAULT_CLIENTDIR) w2)
    as [[r3|c3|e3] w3]; simpl in C3;
    try (exists [use_call server; login_call username password; use_call index];
         split; [exact C3|eexists; reflexivity]).
  destruct (payload !! "workspace") as [ws|] eqn:Hws.
  2:{ rewrite (bind_raised _ _ _ _ _ (subscript_none _ _ _ Hws)).
      exists [use_call server; login_call username password; use_call index].
      split; [exact C3|reflexivity]. }
  rewrite (bind_returned _ _ _ _ _ (subscript_some _ _ _ _ Hws)).
  destruct (ws !! "path") as [path|] eqn:Hpath.
  2:{ rewrite (bind_raised _ _ _ _ _ (subscript_none _ _ _ Hpath)).
      exists [use_call server; login_call username password; use_call index].
      split; [exact C3|reflexivity]. }
  rewrite (bind_returned _ _ _ _ _ (subscript_some _ _ _ _ Hpath)).
  destruct (upload_command path DEFAULT_CLIENTDIR (dict_get v "files" VNone))
    as [cmd|e] eqn:Hcmd.
  - pose proof (upload_package_calls _ _ _ w3 _ Hcmd) as C4.
    rewrite C3, <- app_assoc in C4. rewrite bind_unfold.
    destruct (upload_package path DEFAULT_CLIENTDIR (dict_get v "files" VNone) w3)
      as [[r4|c4|e4] w4]; simpl in C4;
      (exists [use_call server; login_call username password; use_call index;
               Invocation cmd (Some path)]; split; [exact C4|reflexivity]).
  - rewrite (bind_raised _ _ _ _ _ (upload_package_cmd_err _ _ _ _ _ Hcmd)).
    exists [use_call server; login_call username password; use_call index].
    split; [exact C3|reflexivity].
Qed.

(** X3.  The commands [main] issues are always a prefix of the payload's
    plan: [devpi use <server>], [devpi login], [devpi use <index>] and the
    upload, in this order, each at most once, with the payload's values
    passed as they are. *)
Theorem main_follows_plan payload w :
  exists new,
    calls (snd (main payload w)) = calls w ++ new
    /\ new `prefix_of` plan payload.
Proof.
  rewrite main_unfold.
  destruct (payload !! "vargs") as [v|] eqn:Hv.
  - rewrite (bind_returned _ _ _ _ _ (subscript_some _ _ _ _ Hv)).
    destruct (check_vargs_calls v w) as [E|[Hc Hn]].
    + rewrite (bind_returned _ _ _ _ _ E).
      apply main_steps_follow_plan, Hv.
    + rewrite bind_unfold.
      destruct (check_vargs v w) as [[u|c|e] w']; simpl in Hc.
      * destruct (Hn u eq_refl).
      * exists []. rewrite app_nil_r. split; [exact Hc|apply prefix_nil].
      * exists []. rewrite app_nil_r. split; [exact Hc|apply prefix_nil].
  - rewrite (bind_raised _ _ _ _ _ (subscript_none _ _ _ Hv)).
    exists []. rewrite app_nil_r. split; [reflexivity|apply prefix_nil].
Qed.

End Invariants.

(** ** More on pattern expansion *)

Lemma expand_files_loop path l :
  expand_files path (VList l) = expand_loop path l [].
Proof. reflexivity. Qed.

Lemma expand_loop_acc path l acc :
  expand_loop path l acc =
  match expand_loop path l [] with
  | Ok r => Ok (acc ++ r)
  | Err e => Err e
  end.
Proof.
  revert acc. induction l as [|x rest IH]; intros acc; simpl.
  - rewrite app_nil_r. reflexivity.
  - destruct (path_join path x) as [pattern|e]; [|reflexivity].
    rewrite (IH (acc ++ _)), (IH (map VStr (glob pattern))).
    destruct (expand_loop path rest []); [|reflexivity].
    rewrite app_assoc. reflexivity.
Qed.

Lemma expand_loop_app path l1 l2 acc :
  expand_loop path (l1 ++ l2) acc =
  match expand_loop path l1 acc with
  | Ok a => expand_loop path l2 a
  | Err e => Err e
  end.
Proof.
  revert acc. induction l1 as [|x rest IH]; intros acc; simpl.
  - reflexivity.
  - destruct (path_join path x); [apply IH|reflexivity].
Qed.

(** X4.  Expanding two lists of patterns one after the other is expanding
    each and appending the results; an exception raised by the first list
    wins, and one raised by the second list discards the matches of the
    first. *)
Theorem expand_files_app path l1 l2 :
  expand_files path (VList (l1 ++ l2)) =
  match expand_files path (VList l1) with
  | Ok a =>
      match expand_files path (VList l2) with
      | Ok b => Ok (a ++ b)
      | Err e => Err e
      end
  | Err e => Err e
  end.
Proof.
  rewrite !expand_files_loop, expand_loop_app.
  destruct (expand_loop path l1 []) as [a|e]; [|reflexivity].
  apply expand_loop_acc.
Qed.

(** X5.  With a [str] path and [str] patterns, whenever expansion returns
    a list, a file name is in that list exactly when it is a glob match of
    one of the patterns joined with the path. *)
Theorem expand_files_matches (path : string) (patterns : list string)
    (files : list value) :
  expand_files (VStr path) (VList (map VStr patterns)) = Ok files ->
  forall name : string,
    In (VStr name) files <->
    exists pattern,
      In pattern patterns /\ In name (glob (os_path_join path pattern)).
Proof.
  rewrite expand_files_list. intros [= <-] name.
  assert (Hin : In (VStr name) (map VStr (expansions path patterns)) <->
                In name (expansions path patterns)).
  { rewrite in_map_iff. split.
    - intros (x & [= ->] & Hx). exact Hx.
    - intros Hx. exists name. split; [reflexivity|exact Hx]. }
  rewrite Hin. unfold expansions. rewrite in_concat. split.
  - intros (l & Hl & Hname). apply in_map_iff in Hl as (pattern & <- & Hp).
    exists pattern. split; assumption.
  - intros (pattern & Hp & Hname). exists (glob (os_path_join path pattern)).
    split; [|exact Hname]. apply in_map_iff. exists pattern. split; [reflexivity|exact Hp].
Qed.

Lemma expand_loop_bad_path path l acc :
  isinstance_str path = false -> l <> [] ->
  expand_loop path l acc = Err TypeError.
Proof.
  intros Hpath Hl. destruct l as [|x rest]; [contradiction|]. simpl.
  destruct path; try reflexivity. discriminate.
Qed.

Lemma expand_loop_bad_pattern path l acc :
  Exists (fun x => isinstance_str x = false) l ->
  expand_loop path l acc = Err TypeError.
Proof.
  intros H. revert acc. induction H as [x rest Hx|x rest _ IH]; intros acc; simpl.
  - destruct path; try reflexivity. destruct x; try reflexivity. discriminate.
  - destruct (path_join path x) as [pattern|e] eqn:E; [apply IH|].
    unfold path_join in E. destruct path; try congruence; destruct x; congruence.
Qed.

(** X6.  When the patterns are a non-empty list and the path or any one
    pattern is not a [str], the upload step raises [TypeError] and issues no
    command, whatever the other patterns match. *)
Theorem upload_package_rejects_non_str path clientdir (patterns : list value) w :
  patterns <> [] ->
  isinstance_str path = false
  \/ Exists (fun x => isinstance_str x = false) patterns ->
  upload_package path clientdir (VList patterns) w = (Raised TypeError, w).
Proof.
  intros Hne Hbad. apply upload_package_cmd_err. unfold upload_command.
  destruct patterns as [|x rest]; [contradiction|].
  change (truthy (VList (x :: rest))) with true. cbv iota.
  rewrite expand_files_loop.
  destruct Hbad as [Hpath|Hpat].
  - rewrite (expand_loop_bad_path _ _ _ Hpath Hne). reflexivity.
  - rewrite (expand_loop_bad_pattern _ _ _ Hpat). reflexivity.
Qed.

(** X7.  Whatever [files] holds, the upload step issues at most one
    command: none when building the command raised, and otherwise one that
    starts with [devpi upload --clientdir <clientdir> --from-dir --no-vcs]
    and runs in the workspace path.  It prints nothing. *)
Theorem upload_package_one_command path clientdir files w :
  (exists e, upload_package path clientdir files w = (Raised e, w))
  \/ exists extra,
      snd (upload_package path clientdir files w) =
      World (calls w ++
             [Invocation ([VStr "devpi"; VStr "upload"; VStr "--clientdir";
                           clientdir; VStr "--from-dir"; VStr "--no-vcs"]
                          ++ extra) (Some path)])
            (stdout w).
Proof.
  destruct (upload_command path clientdir files) as [cmd|e] eqn:Hcmd.
  - right. destruct (upload_command_shape _ _ _ _ Hcmd) as [extra ->].
    exists extra.
    destruct (spawn (calls w)
                (Invocation (upload_base clientdir ++ extra) (Some path)))
      as [rc|e] eqn:Hrc.
    + rewrite (upload_package_ok _ _ _ _ _ _ Hcmd Hrc). reflexivity.
    + rewrite (upload_package_spawn_err _ _ _ _ _ _ Hcmd Hrc). reflexivity.
  - left. exists e. apply upload_package_cmd_err, Hcmd.
Qed.

(** X14.  A truthy [files] that is neither a [str] nor a list, a number or
    [True], cannot be iterated: the upload step raises [TypeError] and
    issues no command. *)
Theorem upload_package_rejects_non_iterable path clientdir files w :
  truthy files = true ->
  (exists n, files = VInt n) \/ (exists b, files = VBool b) ->
  upload_package path clientdir files w = (Raised TypeError, w).
Proof.
  intros Ht Hshape. apply upload_package_cmd_err. unfold upload_command.
  rewrite Ht. destruct Hshape as [[n ->]|[b ->]]; reflexivity.
Qed.

(** ** Creating an index *)

(** X8.  [create_index] issues the one command [devpi index --clientdir
    <clientdir> -c <index>].  It exits with code 1 when the child ends with
    status 1, returns [None] for any other status, and lets the exception
    through when the child cannot be started. *)
Theorem create_index_policy index clientdir w :
  create_index index clientdir w =
  (match spawn (calls w)
           (Invocation [VStr "devpi"; VStr "index"; VStr "--clientdir";
                        clientdir; VStr "-c"; index] None) with
   | Ok rc => if Z.eqb rc 1 then Exited 1%Z else Returned PyNone
   | Err e => Raised e
   end,
   World (calls w ++
          [Invocation [VStr "devpi"; VStr "index"; VStr "--clientdir";
                       clientdir; VStr "-c"; index] None])
         (stdout w)).
Proof.
  unfold create_index.
  destruct (spawn (calls w)
              (Invocation [VStr "devpi"; VStr "index"; VStr "--clientdir";
                           clientdir; VStr "-c"; index] None))
    as [rc|e] eqn:H.
  - rewrite (die_on_error_returned create_index_body (index, clientdir) w _ _
               (subprocess_run_ok _ _ _ H)).
    reflexivity.
  - apply (die_on_error_raised create_index_body (index, clientdir) w).
    exact (subprocess_run_err _ _ _ H).
Qed.

(** ** More on validation *)

(** X9.  The validator reads [server], [index], [username] and [password]
    and nothing else: setting any other key, [files] for one, does not
    change what it does. *)
Theorem check_vargs_ignores_other_keys v w (k : string) (x : value) :
  k <> "server" -> k <> "index" -> k <> "username" -> k <> "password" ->
  check_vargs (<[k := x]> v) w = check_vargs v w.
Proof.
  intros H1 H2 H3 H4. unfold check_vargs, dict_get.
  rewrite !lookup_insert_ne by congruence. reflexivity.
Qed.

(** X10.  When the validator returns, it has changed nothing, [urlsplit]
    found a scheme and a network location in the server value, [index] and
    [username] are present and truthy, and [password] is present and not
    [None]: reading these three keys afterwards cannot raise [KeyError]. *)
Theorem check_vargs_returned v w u w' :
  check_vargs v w = (Returned u, w') ->
  w' = w
  /\ (exists parsed,
        urlsplit (dict_get v "server" (VStr "")) = Ok parsed
        /\ scheme parsed <> "" /\ netloc parsed <> "")
  /\ (exists i, v !! "index" = Some i /\ truthy i = true)
  /\ (exists n, v !! "username" = Some n /\ truthy n = true)
  /\ (exists p, v !! "password" = Some p /\ p <> VNone).
Proof.
  intros E.
  destruct (urlsplit (dict_get v "server" (VStr ""))) as [parsed|e] eqn:Hs.
  2:{ rewrite (check_vargs_split_err v w e Hs) in E. discriminate. }
  rewrite (check_vargs_eval v w parsed Hs) in E.
  destruct (uri_ok parsed) eqn:Huri; [|discriminate].
  destruct (present_nonempty v "index") eqn:Hi; [|discriminate].
  destruct (present_nonempty v "username") eqn:Hu; [|discriminate].
  destruct (present_not_null v "password") eqn:Hp; [|discriminate].
  simpl in E. injection E as _ <-.
  unfold uri_ok in Huri. apply andb_true_iff in Huri as [Hsch Hnet].
  unfold present_nonempty in Hi, Hu. unfold present_not_null in Hp.
  split; [reflexivity|]. split.
  { exists parsed. split; [reflexivity|].
    split; intros Heq; [rewrite Heq in Hsch|rewrite Heq in Hnet]; discriminate. }
  split.
  { destruct (v !! "index") as [i|]; [|discriminate]. exists i. split; auto. }
  split.
  { destruct (v !! "username") as [n|]; [|discriminate]. exists n. split; auto. }
  destruct (v !! "password") as [p|]; [|discriminate]. exists p.
  split; [reflexivity|]. intros ->. discriminate.
Qed.

(** ** More on the run *)

(** X11.  When the command of a checked step cannot be started,
    [subprocess.run] raising, the exception escapes the step and nothing
    that follows it runs. *)
Theorem run_step_start_failure (s : checked_step) (w : world) (e : exn) :
  spawn (calls w) (Invocation (step_command s) None) = Err e ->
  run_step s w = (Raised e, started (Invocation (step_command s) None) w)
  /\ forall (B : Type) (next : M B),
       (run_step s ;; next) w =
       (Raised e, started (Invocation (step_command s) None) w).
Proof.
  intros H. pose proof (run_step_err s w e H) as E. split; [exact E|].
  intros B next. exact (bind_raised _ _ _ _ _ E).
Qed.

Section ValidRun.

Variables (payload : gmap string (gmap string value)) (v : gmap string value).
Variables (w : world) (server username password index : value).
Variables rc1 rc2 rc3 : Z.

Hypothesis Hvargs : payload !! "vargs" = Some v.
Hypothesis Hchecked : check_vargs v w = (Returned tt, w).
Hypothesis Hserver : v !! "server" = Some server.
Hypothesis Husername : v !! "username" = Some username.
Hypothesis Hpassword : v !! "password" = Some password.
Hypothesis Hindex : v !! "index" = Some index.
Hypothesis Hrun1 : spawn (calls w) (use_call server) = Ok rc1.
Hypothesis Hpass1 : rc1 <> 1%Z.
Hypothesis Hrun2 :
  spawn (calls w ++ [use_call server]) (login_call username password) = Ok rc2.
Hypothesis Hpass2 : rc2 <> 1%Z.
Hypothesis Hrun3 :
  spawn (calls w ++ [use_call server; login_call username password])
        (use_call index) = Ok rc3.
Hypothesis Hpass3 : rc3 <> 1%Z.

(** After three setup steps that passed, [main] is at its upload call. *)
Lemma main_reaches_upload :
  main payload w =
  upload_step payload v
    (World (calls w ++ [use_call server; login_call username password;
                        use_call index]) (stdout w)).
Proof.
  rewrite (main_after_validation _ _ _ _ _ _ _
             Hvargs Hchecked Hserver Husername Hpassword Hindex).
  set (s1 := SelectServer server DEFAULT_CLIENTDIR).
  set (s2 := Login username password DEFAULT_CLIENTDIR).
  set (s3 := SelectIndex index DEFAULT_CLIENTDIR).
  set (w1 := started (Invocation (step_command s1) None) w).
  set (w2 := started (Invocation (step_command s2) None) w1).
  assert (E1 : run_step s1 w = (Returned PyNone, w1))
    by (apply (run_step_pass s1 w rc1); assumption).
  assert (E2 : run_step s2 w1 = (Returned PyNone, w2))
    by (apply (run_step_pass s2 w1 rc2); assumption).
  assert (E3 : run_step s3 w2 =
               (Returned PyNone, started (Invocation (step_command s3) None) w2)).
  { apply (run_step_pass s3 w2 rc3); [|assumption].
    simpl. rewrite <- app_assoc. exact Hrun3. }
  rewrite (bind_returned _ _ _ _ _ E1).
  rewrite (bind_returned _ _ _ _ _ E2).
  rewrite (bind_returned _ _ _ _ _ E3).
  unfold started, w2, w1, started. simpl. rewrite <- !app_assoc. reflexivity.
Qed.

(** X12.  The workspace path is read only when the upload is about to be
    called: a payload without [workspace], or whose workspace has no
    [path], makes [main] raise [KeyError] after the server was selected,
    the login done and the index selected. *)
Theorem main_missing_workspace :
  (payload !! "workspace" = None ->
   main payload w =
   (Raised (KeyError "workspace"),
    World (calls w ++ [use_call server; login_call username password;
                       use_call index]) (stdout w)))
  /\ (forall ws,
        payload !! "workspace" = Some ws -> ws !! "path" = None ->
        main payload w =
        (Raised (KeyError "path"),
         World (calls w ++ [use_call server; login_call username password;
                            use_call index]) (stdout w))).
Proof.
  rewrite main_reaches_upload. unfold upload_step. split.
  - intros Hws. exact (bind_raised _ _ _ _ _ (subscript_none _ _ _ Hws)).
  - intros ws Hws Hpath.
    rewrite (bind_returned _ _ _ _ _ (subscript_some _ _ _ _ Hws)).
    exact (bind_raised _ _ _ _ _ (subscript_none _ _ _ Hpath)).
Qed.

(** X13.  After three setup steps that passed, the status of the upload
    child decides how [main] ends: with exit code 1 when it is 1, and by
    returning normally for every other status, failures such as 2
    included. *)
Theorem main_outcome_after_upload ws path cmd rc4 :
  payload !! "workspace" = Some ws ->
  ws !! "path" = Some path ->
  upload_command path DEFAULT_CLIENTDIR (dict_get v "files" VNone) = Ok cmd ->
  spawn (calls w ++ [use_call server; login_call username password;
                     use_call index])
        (Invocation cmd (Some path)) = Ok rc4 ->
  main payload w =
  (if Z.eqb rc4 1 then Exited 1%Z else Returned tt,
   World (calls w ++ [use_call server; login_call username password;
                      use_call index; Invocation cmd (Some path)])
         (stdout w)).
Proof.
  intros Hws Hpath Hcmd Hrc. rewrite main_reaches_upload. unfold upload_step.
  rewrite (bind_returned _ _ _ _ _ (subscript_some _ _ _ _ Hws)).
  rewrite (bind_returned _ _ _ _ _ (subscript_some _ _ _ _ Hpath)).
  rewrite bind_unfold.
  rewrite (upload_package_ok path DEFAULT_CLIENTDIR (dict_get v "files" VNone)
             (World (calls w ++ [use_call server; login_call username password;
                                 use_call index]) (stdout w))
             cmd rc4 Hcmd Hrc).
  unfold started. simpl. rewrite <- app_assoc.
  destruct (Z.eqb rc4 1); reflexivity.
Qed.

End ValidRun.

End Plugin.

(** * The plugin run in the concrete environment *)

(** C2 at a concrete input: [devpi use] ends with status 2, the step
    returns and the build goes on. *)
Lemma checked_step_exit_policy_witness :
  run_step (Env.scripted [Ok 2%Z])
           (SelectServer (VStr "https://pkg.example.com") DEFAULT_CLIENTDIR) Env.w0 =
  (Returned PyNone,
   World [use_call (VStr "https://pkg.example.com")] []).
Proof.
  exact (proj1 (proj2 (checked_step_exit_policy (Env.scripted [Ok 2%Z])
                         (SelectServer (VStr "https://pkg.example.com")
                                       DEFAULT_CLIENTDIR)
                         Env.w0 2%Z eq_refl)
                      ltac:(discriminate))).
Defined.

(** C1 as the specification words it fails: the upload child ends with the
    non-zero status 1 and [upload_package] does not return, it exits the
    process with code 1. *)
Lemma upload_exit_1_kills_build :
  Env.scripted [Ok 1%Z] (calls Env.w0) (upload_call (VStr "/ws") []) = Ok 1%Z
  /\ 1%Z <> 0%Z
  /\ upload_package Env.os_path_join Env.glob (Env.scripted [Ok 1%Z])
                    (VStr "/ws") DEFAULT_CLIENTDIR VNone Env.w0 =
     (Exited 1%Z, World [upload_call (VStr "/ws") []] []).
Proof. split; [reflexivity|]. split; [discriminate|reflexivity]. Qed.

(** C1 (amended) at a concrete input: status 2 is not 1, the function
    returns. *)
Lemma upload_package_exit_policy_witness :
  upload_package Env.os_path_join Env.glob (Env.scripted [Ok 2%Z])
                 (VStr "/ws") DEFAULT_CLIENTDIR VNone Env.w0 =
  (Returned PyNone, World [upload_call (VStr "/ws") []] []).
Proof.
  exact (proj2 (upload_package_exit_policy Env.os_path_join Env.glob
                  (Env.scripted [Ok 2%Z]) (VStr "/ws") DEFAULT_CLIENTDIR VNone
                  Env.w0 (argv (upload_call (VStr "/ws") [])) 2%Z
                  eq_refl eq_refl)
               ltac:(discriminate)).
Defined.

(** C8 at a concrete input: the upload child ends with status 0 and the
    caller receives [None], not the handle. *)
Lemma upload_package_drops_handle_witness :
  fst (upload_package Env.os_path_join Env.glob (Env.scripted [])
                      (VStr "/ws") DEFAULT_CLIENTDIR VNone Env.w0) =
  Returned PyNone.
Proof.
  exact (proj2 (proj2 (upload_package_drops_handle Env.os_path_join Env.glob
                         (Env.scripted []) (VStr "/ws") DEFAULT_CLIENTDIR VNone
                         Env.w0 (argv (upload_call (VStr "/ws") [])) 0%Z
                         eq_refl eq_refl))
               ltac:(discriminate)).
Defined.

(** C7 at a concrete input: an empty list of patterns. *)
Lemma upload_without_patterns_witness :
  calls (snd (upload_package Env.os_path_join Env.glob (Env.scripted [])
                             (VStr "/ws") DEFAULT_CLIENTDIR (VList []) Env.w0)) =
  [upload_call (VStr "/ws") []].
Proof.
  exact (upload_without_patterns Env.os_path_join Env.glob (Env.scripted [])
           (VStr "/ws") DEFAULT_CLIENTDIR (VList []) Env.w0 eq_refl).
Defined.

(** C6 at a concrete input: two overlapping patterns; [a.whl] matches both
    and is passed twice. *)
Lemma upload_files_expanded_witness :
  calls (snd (upload_package Env.os_path_join Env.glob (Env.scripted [])
                (VStr "/ws") DEFAULT_CLIENTDIR
                (VList [VStr "*.whl"; VStr "a.*"]) Env.w0)) =
  [upload_call (VStr "/ws")
     [VStr "/ws/a.whl"; VStr "/ws/b.whl"; VStr "/ws/a.whl"]].
Proof.
  exact (proj1 (upload_files_expanded Env.os_path_join Env.glob (Env.scripted [])
                  "/ws" DEFAULT_CLIENTDIR ["*.whl"; "a.*"] Env.w0
                  ltac:(discriminate))).
Defined.

(** C10 at a concrete input: [*.zip] matches nothing in the workspace. *)
Lemma upload_unmatched_patterns_witness :
  upload_package Env.os_path_join Env.glob (Env.scripted [])
                 (VStr "/ws") DEFAULT_CLIENTDIR (VList [VStr "*.zip"]) Env.w0 =
  upload_package Env.os_path_join Env.glob (Env.scripted [])
                 (VStr "/ws") DEFAULT_CLIENTDIR VNone Env.w0.
Proof.
  exact (proj1 (upload_unmatched_patterns Env.os_path_join Env.glob
                  (Env.scripted []) "/ws" DEFAULT_CLIENTDIR ["*.zip"] Env.w0
                  ltac:(discriminate)
                  ltac:(repeat constructor))).
Defined.

(** C5 at a concrete input: every field is there and the password is the
    empty string; validation returns. *)
Lemma check_vargs_order_witness :
  check_vargs Env.urlsplit Env.vargs Env.w0 = (Returned tt, Env.w0).
Proof.
  exact (proj1 (proj2 (proj2 (proj2 (proj2
           (check_vargs_order Env.urlsplit Env.vargs Env.w0
              (mkSplitResult "https" "pkg.example.com") eq_refl)))))
           eq_refl eq_refl eq_refl eq_refl).
Defined.

(** C3 at a concrete input: the password is missing; the run exits with
    code 1 and has started no child. *)
Lemma invalid_vargs_start_nothing_witness :
  fst (main Env.urlsplit Env.os_path_join Env.glob (Env.scripted [])
            (Env.payload_of (delete "password" Env.vargs)) Env.w0) = Exited 1%Z
  /\ calls (snd (main Env.urlsplit Env.os_path_join Env.glob (Env.scripted [])
                      (Env.payload_of (delete "password" Env.vargs)) Env.w0)) = []
  /\ exists msg,
      stdout (snd (main Env.urlsplit Env.os_path_join Env.glob (Env.scripted [])
                        (Env.payload_of (delete "password" Env.vargs)) Env.w0)) =
      [] ++ [msg].
Proof.
  exact (proj2 (invalid_vargs_start_nothing Env.urlsplit Env.os_path_join Env.glob
                  (Env.scripted [])
                  (Env.payload_of (delete "password" Env.vargs))
                  (delete "password" Env.vargs) Env.w0 eq_refl)
               (mkSplitResult "https" "pkg.example.com") eq_refl eq_refl
               (or_intror (or_intror (or_intror (or_introl eq_refl))))).
Defined.

(** C4 as the specification words it fails: the payload is valid, [devpi
    use] ends with status 1, and one child is started, not four. *)
Lemma main_stops_after_failed_use :
  check_vargs Env.urlsplit Env.vargs Env.w0 = (Returned tt, Env.w0)
  /\ main Env.urlsplit Env.os_path_join Env.glob (Env.scripted [Ok 1%Z])
          Env.payload Env.w0 =
     (Exited 1%Z, World [use_call (VStr "https://pkg.example.com")] []).
Proof. split; reflexivity. Qed.

(** C4 (amended) at a concrete input: every child ends with status 0. *)
Lemma main_issues_four_commands_witness :
  calls (snd (main Env.urlsplit Env.os_path_join Env.glob (Env.scripted [])
                   Env.payload Env.w0)) =
  [use_call (VStr "https://pkg.example.com");
   login_call (VStr "ci") (VStr "");
   use_call (VStr "root/myindex");
   upload_call (VStr "/ws") []].
Proof.
  exact (proj2 (main_issues_four_commands Env.urlsplit Env.os_path_join Env.glob
                  (Env.scripted []) Env.payload Env.w0)
               Env.vargs Env.workspace
               "https://pkg.example.com" "root/myindex" "ci" "" "/ws"
               (mkSplitResult "https" "pkg.example.com") [] 0%Z 0%Z 0%Z
               eq_refl eq_refl eq_refl eq_refl eq_refl
               ltac:(discriminate) ltac:(discriminate)
               eq_refl ltac:(discriminate)
               eq_refl ltac:(discriminate)
               eq_refl eq_refl
               eq_refl ltac:(discriminate)
               eq_refl ltac:(discriminate)
               eq_refl ltac:(discriminate)).
Defined.

(** A whole run in which the setup children end with statuses 2, 3 and -9:
    none of them is 1, so all four commands are issued. *)
Example main_continues_after_other_statuses :
  main Env.urlsplit Env.os_path_join Env.glob
       (Env.scripted [Ok 2%Z; Ok 3%Z; Ok (-9)%Z])
       Env.payload Env.w0 =
  (Returned tt,
   World [use_call (VStr "https://pkg.example.com");
          login_call (VStr "ci") (VStr "");
          use_call (VStr "root/myindex");
          upload_call (VStr "/ws") []] []).
Proof. reflexivity. Qed.

(** A run in which [devpi login] ends with status 1: the index is never
    selected and nothing is uploaded. *)
Example main_stops_after_failed_login :
  main Env.urlsplit Env.os_path_join Env.glob
       (Env.scripted [Ok 0%Z; Ok 1%Z])
       Env.payload Env.w0 =
  (Exited 1%Z,
   World [use_call (VStr "https://pkg.example.com");
          login_call (VStr "ci") (VStr "")] []).
Proof. reflexivity. Qed.

(** A server without a scheme is refused before the other fields are
    looked at: the mapping holds nothing else and only the URI message is
    printed. *)
Example check_vargs_bare_host :
  check_vargs Env.urlsplit {[ "server" := VStr "pkg.example.com" ]} Env.w0 =
  (Exited 1%Z, World [] [MSG_SERVER]).
Proof. reflexivity. Qed.

(** * The further properties in the concrete environment *)

(** X1 at a concrete input: [devpi use] ends with status 1 and the run
    exits with code 1. *)
Lemma main_exit_code_is_1_witness :
  fst (main Env.urlsplit Env.os_path_join Env.glob (Env.scripted [Ok 1%Z])
            Env.payload Env.w0) = Exited 1%Z
  /\ 1%Z = 1%Z.
Proof.
  split; [reflexivity|].
  exact (main_exit_code_is_1 Env.urlsplit Env.os_path_join Env.glob
           (Env.scripted [Ok 1%Z]) Env.payload Env.w0 1%Z eq_refl).
Defined.

(** X6 at a concrete input: the second pattern is a number; nothing is
    uploaded although the first pattern matches two files. *)
Lemma upload_package_rejects_non_str_witness :
  upload_package Env.os_path_join Env.glob (Env.scripted [])
                 (VStr "/ws") DEFAULT_CLIENTDIR
                 (VList [VStr "*.whl"; VInt 3]) Env.w0 =
  (Raised TypeError, Env.w0).
Proof.
  exact (upload_package_rejects_non_str Env.os_path_join Env.glob
           (Env.scripted []) (VStr "/ws") DEFAULT_CLIENTDIR
           [VStr "*.whl"; VInt 3] Env.w0
           ltac:(discriminate)
           (or_intror
              (List.Exists_cons_tl (VStr "*.whl")
                 (List.Exists_cons_hd (fun x => isinstance_str x = false)
                    (VInt 3) [] (eq_refl false))))).
Defined.

(** X14 at a concrete input: [files] is the number 5. *)
Lemma upload_package_rejects_non_iterable_witness :
  upload_package Env.os_path_join Env.glob (Env.scripted [])
                 (VStr "/ws") DEFAULT_CLIENTDIR (VInt 5) Env.w0 =
  (Raised TypeError, Env.w0).
Proof.
  exact (upload_package_rejects_non_iterable Env.os_path_join Env.glob
           (Env.scripted []) (VStr "/ws") DEFAULT_CLIENTDIR (VInt 5) Env.w0
           eq_refl (or_introl (ex_intro _ 5%Z eq_refl))).
Defined.

(** X9 at a concrete input: adding [files] to the mapping. *)
Lemma check_vargs_ignores_other_keys_witness :
  check_vargs Env.urlsplit (<["files" := VStr "*.whl"]> Env.vargs) Env.w0 =
  check_vargs Env.urlsplit Env.vargs Env.w0.
Proof.
  exact (check_vargs_ignores_other_keys Env.urlsplit Env.vargs Env.w0
           "files" (VStr "*.whl")
           ltac:(discriminate) ltac:(discriminate)
           ltac:(discriminate) ltac:(discriminate)).
Defined.

(** X10 at a concrete input: the mapping that passes validation holds a
    password. *)
Lemma check_vargs_returned_witness :
  exists p, Env.vargs !! "password" = Some p /\ p <> VNone.
Proof.
  exact (proj2 (proj2 (proj2 (proj2
           (check_vargs_returned Env.urlsplit Env.vargs Env.w0 tt Env.w0
              eq_refl))))).
Defined.

(** X11 at a concrete input: [devpi] is not installed. *)
Lemma run_step_start_failure_witness :
  run_step (Env.scripted [Err (LibError "FileNotFoundError")])
           (SelectServer (VStr "https://pkg.example.com") DEFAULT_CLIENTDIR)
           Env.w0 =
  (Raised (LibError "FileNotFoundError"),
   World [use_call (VStr "https://pkg.example.com")] []).
Proof.
  exact (proj1 (run_step_start_failure
                  (Env.scripted [Err (LibError "FileNotFoundError")])
                  (SelectServer (VStr "https://pkg.example.com")
                                DEFAULT_CLIENTDIR)
                  Env.w0 (LibError "FileNotFoundError") eq_refl)).
Defined.

(** X12 at a concrete input: the payload has no [workspace]. *)
Lemma main_missing_workspace_witness :
  main Env.urlsplit Env.os_path_join Env.glob (Env.scripted [])
       (<["vargs" := Env.vargs]> ∅) Env.w0 =
  (Raised (KeyError "workspace"),
   World [use_call (VStr "https://pkg.example.com");
          login_call (VStr "ci") (VStr "");
          use_call (VStr "root/myindex")] []).
Proof.
  exact (proj1 (main_missing_workspace Env.urlsplit Env.os_path_join Env.glob
                  (Env.scripted []) (<["vargs" := Env.vargs]> ∅) Env.vargs
                  Env.w0
                  (VStr "https://pkg.example.com") (VStr "ci") (VStr "")
                  (VStr "root/myindex") 0%Z 0%Z 0%Z
                  eq_refl eq_refl eq_refl eq_refl eq_refl eq_refl
                  eq_refl ltac:(discriminate)
                  eq_refl ltac:(discriminate)
                  eq_refl ltac:(discriminate))
               eq_refl).
Defined.

(** X13 at a concrete input: the upload child ends with status 2 and
    [main] returns. *)
Lemma main_outcome_after_upload_witness :
  main Env.urlsplit Env.os_path_join Env.glob
       (Env.scripted [Ok 0%Z; Ok 0%Z; Ok 0%Z; Ok 2%Z]) Env.payload Env.w0 =
  (Returned tt,
   World [use_call (VStr "https://pkg.example.com");
          login_call (VStr "ci") (VStr "");
          use_call (VStr "root/myindex");
          upload_call (VStr "/ws") []] []).
Proof.
  exact (main_outcome_after_upload Env.urlsplit Env.os_path_join Env.glob
           (Env.scripted [Ok 0%Z; Ok 0%Z; Ok 0%Z; Ok 2%Z])
           Env.payload Env.vargs Env.w0
           (VStr "https://pkg.example.com") (VStr "ci") (VStr "")
           (VStr "root/myindex") 0%Z 0%Z 0%Z
           eq_refl eq_refl eq_refl eq_refl eq_refl eq_refl
           eq_refl ltac:(discriminate)
           eq_refl ltac:(discriminate)
           eq_refl ltac:(discriminate)
           Env.workspace (VStr "/ws") (argv (upload_call (VStr "/ws") [])) 2%Z
           eq_refl eq_refl eq_refl eq_refl).
Defined.

(** C9 as the specification words it fails: the server is the number 5,
    [urlsplit] raises on it, and the validator neither returns nor prints a
    line and exits: the exception escapes. *)
Lemma check_vargs_raises_on_number :
  check_vargs Env.urlsplit {[ "server" := VInt 5 ]} Env.w0 =
    (Raised (LibError "AttributeError"), Env.w0)
  /\ ~ (check_vargs Env.urlsplit {[ "server" := VInt 5 ]} Env.w0 =
          (Returned tt, Env.w0)
        \/ exists msg,
            check_vargs Env.urlsplit {[ "server" := VInt 5 ]} Env.w0 =
            (Exited 1%Z, printed msg Env.w0)).
Proof.
  split; [reflexivity|].
  intros [H|[msg H]]; vm_compute in H; discriminate.
Qed.

(** X5 at a concrete input: [b.whl] is passed because [*.whl] matches it. *)
Lemma expand_files_matches_witness :
  In (VStr "/ws/b.whl")
     [VStr "/ws/a.whl"; VStr "/ws/b.whl"; VStr "/ws/a.whl"] <->
  exists pattern,
    In pattern ["*.whl"; "a.*"]
    /\ In "/ws/b.whl" (Env.glob (Env.os_path_join "/ws" pattern)).
Proof.
  exact (expand_files_matches Env.os_path_join Env.glob "/ws" ["*.whl"; "a.*"]
           [VStr "/ws/a.whl"; VStr "/ws/b.whl"; VStr "/ws/a.whl"]
           eq_refl "/ws/b.whl").
Defined.
